(** * Grizzly: query compiler and windowed aggregation engine

    A shallow embedding of the Go sources of the stream processor:
    the catalog lookup ([pkg/catalog]), the plan builder of the compiler
    ([pkg/compiler], [pkg/codegen]), the aggregate functors ([pkg/functor]),
    the operators ([pkg/operator]) and the workers of the engine
    ([pkg/engine]).  One Rocq module stands for one Go package and keeps the
    names of the Go functions.  The theorems come after the definitions. *)

From Stdlib Require Import ZArith QArith Qround String Ascii List Bool Lia.
From Stdlib Require Import PrimFloat SpecFloat FloatOps.
From stdpp Require Import gmap strings list.

Local Open Scope Z_scope.

(** ** Outcome of a Go call

    A Go function of this code base either returns, returns with a non-nil
    [error] value, or panics.  Nothing in the repository recovers from a
    panic, so a panic ends the process. *)

Inductive result (A : Type) : Type :=
| Ok (a : A)
| Err (e : string)
| Panic (e : string).

Arguments Ok {A} a.
Arguments Err {A} e.
Arguments Panic {A} e.

Global Instance result_ret : MRet result := λ A a, Ok a.
Global Instance result_bind : MBind result := λ A B f m,
  match m with
  | Ok a => f a
  | Err e => Err e
  | Panic e => Panic e
  end.

Global Instance result_fmap : FMap result := λ A B f m,
  match m with
  | Ok a => Ok (f a)
  | Err e => Err e
  | Panic e => Panic e
  end.

(** [if err != nil { panic(err) }] *)
Definition orPanic {A} (r : result A) : result A :=
  match r with
  | Err e => Panic e
  | _ => r
  end.

(** Loop over a slice with an accumulator, stopping at the first error. *)
Fixpoint foldM {A S : Type} (f : S → A → result S) (l : list A) (s : S) : result S :=
  match l with
  | [] => Ok s
  | a :: l' =>
      match f s a with
      | Ok s' => foldM f l' s'
      | Err e => Err e
      | Panic e => Panic e
      end
  end.

(** ** Machine integers and binary64 floats *)

Definition wrap64 (z : Z) : Z := (z + 2 ^ 63) mod 2 ^ 64 - 2 ^ 63.

Definition in_int64 (z : Z) : bool := (- 2 ^ 63 <=? z) && (z <? 2 ^ 63).

Abbreviation float64 := PrimFloat.float.

(** Nearest binary64 to the integer [m * 2^e], ties to even. *)
Definition float64_of_scaled (m e : Z) : float64 :=
  SF2Prim (binary_normalize prec emax m e false).

(** The conversion [float64(i)] of an [int64]. *)
Definition float64_of_int64 (z : Z) : float64 := float64_of_scaled z 0.

(** The conversion [int64(f)]: truncation towards zero; outside the range
    of [int64] (and for NaN) the amd64 result, the minimal integer. *)
Definition int64_of_float64 (f : float64) : Z :=
  match Prim2SF f with
  | S754_zero _ => 0
  | S754_finite s m e =>
      let a := if 0 <=? e then Z.pos m * 2 ^ e else Z.pos m / 2 ^ (- e) in
      let z := if s then - a else a in
      if in_int64 z then z else - 2 ^ 63
  | _ => - 2 ^ 63
  end.

(** ** Values of the four field types *)

Inductive FieldType := FieldType_boolean | FieldType_float64 | FieldType_integer64 | FieldType_text.

Inductive FieldUsage := FieldUsage_data | FieldUsage_time | FieldUsage_group | FieldUsage_sequence.

Inductive OperatorType :=
| OperatorType_ingress
| OperatorType_ingressFilter
| OperatorType_window
| OperatorType_aggregate
| OperatorType_aggregateFilter
| OperatorType_project
| OperatorType_projectFilter
| OperatorType_egress.

Global Instance FieldType_eq_dec : EqDecision FieldType.
Proof. solve_decision. Defined.
Global Instance FieldUsage_eq_dec : EqDecision FieldUsage.
Proof. solve_decision. Defined.
Global Instance OperatorType_eq_dec : EqDecision OperatorType.
Proof. solve_decision. Defined.

(** A Go value of dynamic type [bool], [float64], [int64] or [string]. *)
Inductive Value :=
| VBool (b : bool)
| VFloat (f : float64)
| VInt (i : Z)
| VText (s : string).

Definition typeOf (v : Value) : FieldType :=
  match v with
  | VBool _ => FieldType_boolean
  | VFloat _ => FieldType_float64
  | VInt _ => FieldType_integer64
  | VText _ => FieldType_text
  end.

Definition zeroValue (t : FieldType) : Value :=
  match t with
  | FieldType_boolean => VBool false
  | FieldType_float64 => VFloat PrimFloat.zero
  | FieldType_integer64 => VInt 0
  | FieldType_text => VText ""
  end.

(** ** Package strconv *)

Module Strconv.

Definition digitChar (d : Z) : ascii := ascii_of_N (48 + Z.to_N d).

Fixpoint formatBits (fuel : nat) (n : Z) (acc : string) : string :=
  match fuel with
  | O => acc
  | S fuel' =>
      let acc' := String (digitChar (n mod 10)) acc in
      if n <? 10 then acc' else formatBits fuel' (n / 10) acc'
  end.

(** Decimal digits of a natural number (at most one digit per bit). *)
Definition FormatUint (n : Z) : string :=
  formatBits (S (Z.to_nat (Z.log2 n))) n "".

(** [strconv.FormatInt(i, 10)], also [strconv.Itoa]. *)
Definition FormatInt (z : Z) : string :=
  if z <? 0 then "-" +:+ FormatUint (- z) else FormatUint z.

Definition isDigit (c : ascii) : bool :=
  let n := N_of_ascii c in (48 <=? n)%N && (n <=? 57)%N.

Definition digitVal (c : ascii) : Z := Z.of_N (N_of_ascii c) - 48.

(** Reads a maximal run of decimal digits: its value, its length and the rest. *)
Fixpoint readDigits (s : string) (acc : Z) (n : Z) : Z * Z * string :=
  match s with
  | String c s' => if isDigit c then readDigits s' (10 * acc + digitVal c) (n + 1) else (acc, n, s)
  | EmptyString => (acc, n, s)
  end.

Definition readSign (s : string) : bool * string :=
  match s with
  | String "-" s' => (true, s')
  | String "+" s' => (false, s')
  | _ => (false, s)
  end.

(** [strconv.ParseInt(s, 10, 64)] *)
Definition ParseInt (s : string) : result Z :=
  let '(neg, s1) := readSign s in
  let '(v, n, rest) := readDigits s1 0 0 in
  if (n =? 0) || negb (String.eqb rest "") then
    Err ("strconv.ParseInt: parsing " +:+ s +:+ ": invalid syntax")
  else
    let z := if neg then - v else v in
    if in_int64 z then Ok z
    else Err ("strconv.ParseInt: parsing " +:+ s +:+ ": value out of range").

(** [strconv.Atoi]; [int] has 64 bits. *)
Definition Atoi (s : string) : result Z := ParseInt s.

(** [strconv.ParseBool] *)
Definition ParseBool (s : string) : result bool :=
  if bool_decide (s ∈ ["1"; "t"; "T"; "TRUE"; "true"; "True"]) then Ok true
  else if bool_decide (s ∈ ["0"; "f"; "F"; "FALSE"; "false"; "False"]) then Ok false
  else Err ("strconv.ParseBool: parsing " +:+ s +:+ ": invalid syntax").

(** *** Shortest decimal of a float

    [FormatFloat(f, 'g', -1, 64)] prints the decimal with the fewest
    digits that reads back as [f], and among those the one nearest to
    [f].  The positive finite float is [m * 2^e]. *)

(** Largest [p] with [10^p <= v], for a rational [v > 0]. *)
Definition floorLog10 (v : Q) : Z :=
  let num := Qnum v in
  let den := Z.pos (Qden v) in
  if den <=? num then
    Z.of_nat (String.length (FormatUint (num / den))) - 1
  else
    let d := Z.of_nat (String.length (FormatUint (den / num))) in
    if Qle_bool (inject_Z 10 ^ (1 - d)) v then 1 - d else - d.

(** The interval of the reals that round to [m * 2^e], and whether its
    end points belong to it. *)
Definition roundingInterval (m e : Z) : Q * Q * bool :=
  let narrow := (m =? 2 ^ 52) && (-1074 <? e) in
  let unit := (inject_Z 2 ^ (e - 2))%Q in
  let lo := (inject_Z (4 * m - (if narrow then 1 else 2)) * unit)%Q in
  let hi := (inject_Z (4 * m + 2) * unit)%Q in
  (lo, hi, Z.even m).

Definition inInterval (iv : Q * Q * bool) (x : Q) : bool :=
  let '(lo, hi, closed) := iv in
  if closed then Qle_bool lo x && Qle_bool x hi
  else negb (Qle_bool x lo) && negb (Qle_bool hi x).

(** Digits [d] and exponent [k] with [d * 10^k] the answer, trying
    [n], [n+1], ... significant digits. *)
Fixpoint shortestFrom (fuel : nat) (n : Z) (v : Q) (iv : Q * Q * bool) (p : Z) : Z * Z :=
  let k := p - n + 1 in
  let unit := (inject_Z 10 ^ k)%Q in
  let c := Qfloor (v / unit) in
  let below := (inject_Z c * unit)%Q in
  let above := (inject_Z (c + 1) * unit)%Q in
  let nearBelow := Qle_bool (v - below) (above - v) in
  match fuel with
  | O => (if nearBelow then c else c + 1, k)
  | S fuel' =>
      match inInterval iv below, inInterval iv above with
      | true, true => (if nearBelow then c else c + 1, k)
      | true, false => (c, k)
      | false, true => (c + 1, k)
      | false, false => shortestFrom fuel' (n + 1) v iv p
      end
  end.

Fixpoint trimZeros (fuel : nat) (d k : Z) : Z * Z :=
  match fuel with
  | O => (d, k)
  | S fuel' => if (d mod 10 =? 0) && (0 <? d) then trimZeros fuel' (d / 10) (k + 1) else (d, k)
  end.

(** Digit string and position of the decimal point: the value is
    [0.d1d2... * 10^dp]. *)
Definition shortest (m e : Z) : string * Z :=
  let v := (inject_Z m * inject_Z 2 ^ e)%Q in
  let v := Qred v in
  let '(d, k) := shortestFrom 17 1 v (roundingInterval m e) (floorLog10 v) in
  let '(d, k) := trimZeros 20 d k in
  let digs := FormatUint d in
  (digs, Z.of_nat (String.length digs) + k).

Fixpoint zeros (n : nat) : string :=
  match n with
  | O => ""
  | S n' => String "0" (zeros n')
  end.

(** [%e] with all digits: [d.ddde±xx]. *)
Definition fmtE (digs : string) (dp : Z) : string :=
  let ex := dp - 1 in
  let mant :=
    match digs with
    | String c EmptyString => String c ""
    | String c rest => String c ("." +:+ rest)
    | EmptyString => "0"
    end in
  let es := FormatUint (Z.abs ex) in
  let es := if Z.abs ex <? 10 then "0" +:+ es else es in
  mant +:+ "e" +:+ (if ex <? 0 then "-" else "+") +:+ es.

(** [%f] with all digits. *)
Definition fmtF (digs : string) (dp : Z) : string :=
  let nd := Z.of_nat (String.length digs) in
  if dp <=? 0 then "0." +:+ zeros (Z.to_nat (- dp)) +:+ digs
  else if nd <=? dp then digs +:+ zeros (Z.to_nat (dp - nd))
  else substring 0 (Z.to_nat dp) digs +:+ "." +:+
       substring (Z.to_nat dp) (Z.to_nat (nd - dp)) digs.

(** [FormatFloat(f, 'g', -1, 64)]: the exponent form is used when the
    decimal exponent is below -4 or at least 6 (the precision that the
    shortest mode takes for this decision, whatever the digit count). *)
Definition FormatFloat (f : float64) : string :=
  match Prim2SF f with
  | S754_nan => "NaN"
  | S754_infinity s => if s then "-Inf" else "+Inf"
  | S754_zero s => if s then "-0" else "0"
  | S754_finite s m e =>
      let '(digs, dp) := shortest (Z.pos m) e in
      let ex := dp - 1 in
      let body := if (ex <? -4) || (6 <=? ex) then fmtE digs dp else fmtF digs dp in
      if s then "-" +:+ body else body
  end.

(** *** Reading a decimal float *)

(** Nearest binary64 to [n / 10^k] for [n >= 0] and [k > 0]: the quotient
    is taken with 64 bits below the last bit of [n] and a sticky bit. *)
Definition roundQuotient (neg : bool) (n : Z) (k : Z) : float64 :=
  let den := 10 ^ k in
  let s := Z.log2 den + 66 in
  let q := (n * 2 ^ s) / den in
  let r := (n * 2 ^ s) mod den in
  let m := 2 * q + (if r =? 0 then 0 else 1) in
  SF2Prim (binary_normalize prec emax (if neg then - m else m) (- s - 1) neg).

Definition roundDecimal (neg : bool) (n : Z) (k : Z) : float64 :=
  if 0 <=? k then
    SF2Prim (binary_normalize prec emax (if neg then - (n * 10 ^ k) else n * 10 ^ k) 0 neg)
  else roundQuotient neg n (- k).

Definition lower (s : string) : string :=
  let low (c : ascii) :=
    let n := N_of_ascii c in
    if (65 <=? n)%N && (n <=? 90)%N then ascii_of_N (n + 32) else c in
  string_of_list_ascii (List.map low (list_ascii_of_string s)).

(** [strconv.ParseFloat(s, 64)] for decimal numerals and the spellings of
    the infinities and NaN.  Hexadecimal numerals are taken as a syntax
    error here. *)
Definition ParseFloat (s : string) : result float64 :=
  let bad := Err ("strconv.ParseFloat: parsing " +:+ s +:+ ": invalid syntax") in
  let '(neg, s1) := readSign s in
  let l := lower s1 in
  if bool_decide (l ∈ ["inf"; "infinity"]) then
    Ok (if neg then PrimFloat.neg_infinity else PrimFloat.infinity)
  else if String.eqb (lower s) "nan" then Ok PrimFloat.nan
  else
    let '(ip, ni, s2) := readDigits s1 0 0 in
    let '(fp, nf, s3) :=
      match s2 with
      | String "." s2' => readDigits s2' ip 0
      | _ => (ip, 0, s2)
      end in
    if ni + nf =? 0 then bad
    else
      let ex : option Z :=
        match s3 with
        | EmptyString => Some 0
        | String c s3' =>
            if bool_decide (c ∈ ["e"%char; "E"%char]) then
              let '(eneg, s4) := readSign s3' in
              let '(ev, ne, s5) := readDigits s4 0 0 in
              if (ne =? 0) || negb (String.eqb s5 "") then None
              else Some (if eneg then - ev else ev)
            else None
        end in
      match ex with
      | None => bad
      | Some ev =>
          let f := roundDecimal neg fp (ev - nf) in
          if PrimFloat.is_infinity f then
            Err ("strconv.ParseFloat: parsing " +:+ s +:+ ": value out of range")
          else Ok f
      end.

End Strconv.

(** ** Package time

    An instant is the number of nanoseconds since January 1 of year 1,
    00:00:00 UTC, which is Go's zero [Time]; a [Duration] is a number of
    nanoseconds.  Instants come from [Parse] (years 0 to 9999) and from one
    [Add] to such an instant, so the saturation of [Add] at the ends of the
    representable range is never reached and is left out. *)

Module GoTime.

Definition Nanosecond : Z := 1.
Definition Millisecond : Z := 1000000.
Definition Second : Z := 1000000000.
Definition Minute : Z := 60 * Second.

(** The zero value of [time.Time]. *)
Definition zeroTime : Z := 0.

Definition Before (t u : Z) : bool := t <? u.

Definition Add (t d : Z) : Z := t + d.

(** [t.Truncate(d)]: [t] rounded down to a multiple of [d] since the zero
    time; [t] itself when [d <= 0]. *)
Definition Truncate (t d : Z) : Z := if d <=? 0 then t else t - t mod d.

Definition isLeap (y : Z) : bool :=
  (y mod 4 =? 0) && (negb (y mod 100 =? 0) || (y mod 400 =? 0)).

Definition daysIn (m y : Z) : Z :=
  if m =? 2 then (if isLeap y then 29 else 28)
  else if bool_decide (m ∈ [4; 6; 9; 11]) then 30 else 31.

(** Days from January 1 of year 1 to the given civil date. *)
Definition daysSinceYear1 (y m d : Z) : Z :=
  let y' := if m <=? 2 then y - 1 else y in
  let era := y' / 400 in
  let yoe := y' - era * 400 in
  let doy := (153 * (m + (if 2 <? m then -3 else 9)) + 2) / 5 + d - 1 in
  let doe := yoe * 365 + yoe / 4 - yoe / 100 + doy in
  era * 146097 + doe - 719468 + 719162.

(** Exactly [n] decimal digits. *)
Fixpoint num (n : nat) (acc : Z) (s : string) : option (Z * string) :=
  match n with
  | O => Some (acc, s)
  | S n' =>
      match s with
      | String c s' =>
          if Strconv.isDigit c then num n' (10 * acc + Strconv.digitVal c) s' else None
      | EmptyString => None
      end
  end.

Definition lit (c : ascii) (s : string) : option string :=
  match s with
  | String c' s' => if Ascii.eqb c c' then Some s' else None
  | EmptyString => None
  end.

(** Fraction of a second after the point: at least one digit, the first
    nine count. *)
Definition fraction (s : string) : option (Z * string) :=
  match s with
  | String "." s' =>
      let '(_, n, rest) := Strconv.readDigits s' 0 0 in
      if n =? 0 then None
      else
        let kept := substring 0 (Nat.min 9 (Z.to_nat n)) s' in
        let '(v, k, _) := Strconv.readDigits kept 0 0 in
        Some (v * 10 ^ (9 - k), rest)
  | _ => Some (0, s)
  end.

(** Offset from UTC in seconds. *)
Definition zone (s : string) : option Z :=
  match s with
  | String "Z" EmptyString => Some 0
  | String c s' =>
      if bool_decide (c ∈ ["+"%char; "-"%char]) then
        '(hh, s1) ← num 2 0 s';
        s2 ← lit ":" s1;
        '(mm, s3) ← num 2 0 s2;
        if String.eqb s3 "" && (hh <=? 23) && (mm <=? 59) then
          Some ((if Ascii.eqb c "-" then -1 else 1) * (hh * 60 + mm) * 60)
        else None
      else None
  | EmptyString => None
  end.

Definition parseRFC3339 (s : string) : option Z :=
  '(y, s) ← num 4 0 s;
  s ← lit "-" s;
  '(mo, s) ← num 2 0 s;
  s ← lit "-" s;
  '(d, s) ← num 2 0 s;
  s ← lit "T" s;
  '(h, s) ← num 2 0 s;
  s ← lit ":" s;
  '(mi, s) ← num 2 0 s;
  s ← lit ":" s;
  '(sec, s) ← num 2 0 s;
  '(ns, s) ← fraction s;
  off ← zone s;
  if (1 <=? mo) && (mo <=? 12) && (1 <=? d) && (d <=? daysIn mo y)
     && (h <=? 23) && (mi <=? 59) && (sec <=? 59)
  then Some ((daysSinceYear1 y mo d * 86400 + h * 3600 + mi * 60 + sec - off) * Second + ns)
  else None.

(** [time.Parse(time.RFC3339Nano, value)] on the strict RFC 3339 form
    [YYYY-MM-DDTHH:MM:SS[.fraction](Z|±HH:MM)].  Go also takes a few
    spellings outside that form (a one-digit hour, a comma before the
    fraction); they are an error here. *)
Definition Parse (value : string) : result Z :=
  match parseRFC3339 value with
  | Some t => Ok t
  | None => Err ("parsing time " +:+ value +:+ ": cannot parse as RFC3339")
  end.

End GoTime.

(** ** Package fmt *)

Module Fmt.

(** [fmt.Sprintf("%v", v)] for a value of one of the four field types;
    [None] is the nil interface. *)
Definition Sprint (v : option Value) : string :=
  match v with
  | None => "<nil>"
  | Some (VBool b) => if b then "true" else "false"
  | Some (VFloat f) => Strconv.FormatFloat f
  | Some (VInt i) => Strconv.FormatInt i
  | Some (VText s) => s
  end.

End Fmt.

(** ** Package strings and package utility *)

Module Strings.

Fixpoint splitGo (sep : ascii) (s : string) (cur : string) : list string :=
  match s with
  | EmptyString => [cur]
  | String c s' =>
      if Ascii.eqb c sep then cur :: splitGo sep s' ""
      else splitGo sep s' (cur +:+ String c "")
  end.

(** [strings.Split(s, sep)] for a separator of one byte. *)
Definition Split (s : string) (sep : ascii) : list string := splitGo sep s "".

(** [strings.Contains] *)
Fixpoint Contains (s sub : string) : bool :=
  String.prefix sub s ||
  match s with
  | EmptyString => false
  | String _ s' => Contains s' sub
  end.

End Strings.

Module Utility.

(** [strings.ToUpper] of a string of one byte: an ASCII letter goes to
    upper case, a byte that is no ASCII character becomes the encoding of
    the replacement character. *)
Definition upperByte (c : ascii) : string :=
  let n := N_of_ascii c in
  if (97 <=? n)%N && (n <=? 122)%N then String (ascii_of_N (n - 32)) ""
  else if (n <? 128)%N then String c ""
  else String (ascii_of_N 239) (String (ascii_of_N 191) (String (ascii_of_N 189) "")).

(** [UpcaseFirstLetter]: the slice [s[:1]] panics on the empty string. *)
Definition UpcaseFirstLetter (s : string) : result string :=
  match s with
  | EmptyString => Panic "runtime error: slice bounds out of range [:1] with length 0"
  | String c s' => Ok (upperByte c +:+ s')
  end.

End Utility.

(** ** The Cap'n Proto schema of catalogs and plans ([grizzly.capnp])

    The structures carry the members that the compiler or the engine reads
    or writes.  A list pointer that was never set is [None]; reading it gives
    the empty list. *)

Module Grizzly.

Record Field := {
  Field_Name : string;
  Field_Description : string;
  Field_Type : FieldType;
  Field_Usage : FieldUsage;
  Field_Properties : list (string * string)
}.

(** A freshly allocated [Field], and the zero value of the Go struct. *)
Definition zeroField : Field :=
  {| Field_Name := ""; Field_Description := ""; Field_Type := FieldType_boolean;
     Field_Usage := FieldUsage_data; Field_Properties := [] |}.

Record Function := {
  Function_Name : string;
  Function_IsAggregate : bool;
  Function_IsBuiltIn : bool;
  Function_InputTypes : list FieldType;
  Function_OutputType : FieldType;
  Function_OutputName : string
}.

Record Call := {
  Call_Function : Function;
  Call_InputFields : list Field;
  Call_OutputField : Field
}.

Record OperatorProperty := { Property_Key : string; Property_Value : string }.

Definition zeroProperty : OperatorProperty := {| Property_Key := ""; Property_Value := "" |}.

Record Node := {
  Node_Id : Z;
  Node_Label : string;
  Node_Type : OperatorType;
  Node_Properties : list OperatorProperty;
  Node_FieldsPtr : option (list Field);
  Node_GroupFieldsPtr : option (list Field);
  Node_Calls : list Call
}.

Definition Node_HasFields (n : Node) : bool := bool_decide (is_Some (Node_FieldsPtr n)).
Definition Node_HasGroupFields (n : Node) : bool := bool_decide (is_Some (Node_GroupFieldsPtr n)).
Definition Node_Fields (n : Node) : list Field := default [] (Node_FieldsPtr n).
Definition Node_GroupFields (n : Node) : list Field := default [] (Node_GroupFieldsPtr n).

Definition Node_SetFields (fs : list Field) (n : Node) : Node :=
  {| Node_Id := Node_Id n; Node_Label := Node_Label n; Node_Type := Node_Type n;
     Node_Properties := Node_Properties n; Node_FieldsPtr := Some fs;
     Node_GroupFieldsPtr := Node_GroupFieldsPtr n; Node_Calls := Node_Calls n |}.

Definition Node_SetGroupFields (fs : list Field) (n : Node) : Node :=
  {| Node_Id := Node_Id n; Node_Label := Node_Label n; Node_Type := Node_Type n;
     Node_Properties := Node_Properties n; Node_FieldsPtr := Node_FieldsPtr n;
     Node_GroupFieldsPtr := Some fs; Node_Calls := Node_Calls n |}.

Definition Node_SetCalls (cs : list Call) (n : Node) : Node :=
  {| Node_Id := Node_Id n; Node_Label := Node_Label n; Node_Type := Node_Type n;
     Node_Properties := Node_Properties n; Node_FieldsPtr := Node_FieldsPtr n;
     Node_GroupFieldsPtr := Node_GroupFieldsPtr n; Node_Calls := cs |}.

Definition Node_SetProperties (ps : list OperatorProperty) (n : Node) : Node :=
  {| Node_Id := Node_Id n; Node_Label := Node_Label n; Node_Type := Node_Type n;
     Node_Properties := ps; Node_FieldsPtr := Node_FieldsPtr n;
     Node_GroupFieldsPtr := Node_GroupFieldsPtr n; Node_Calls := Node_Calls n |}.

Record Table := { Table_Name : string; Table_Fields : list Field }.
Record Schema := { Schema_Name : string; Schema_Tables : list Table }.
Record Database := { Database_Name : string; Database_Schemas : list Schema }.
Record System := { System_Name : string; System_Databases : list Database }.

(** A plan: the root node and its descendants.  Every node of a plan has
    one child except the last, so the tree is the list of its nodes from
    the root down. *)
Definition Plan := list Node.

End Grizzly.

Export Grizzly.

(** ** Package utility: the search in the plan *)

Module UtilityPlan.

(** [FindFirstNodeByType]: the node itself if it has the type, else the
    search goes on in its children. *)
Fixpoint FindFirstNodeByType (plan : Plan) (opType : OperatorType) : option Node :=
  match plan with
  | [] => None
  | node :: children =>
      if decide (Node_Type node = opType) then Some node
      else FindFirstNodeByType children opType
  end.

(** A write through the pointer that [FindFirstNodeByType] returned. *)
Fixpoint updateNode (opType : OperatorType) (f : Node → Node) (plan : Plan) : Plan :=
  match plan with
  | [] => []
  | node :: children =>
      if decide (Node_Type node = opType) then f node :: children
      else node :: updateNode opType f children
  end.

End UtilityPlan.

Export UtilityPlan.

(** ** Package catalog *)

Module Catalog.

(** The tables that the three nested loops of [FindTable] visit, in the
    order of the visit. *)
Definition tablesOf (sys : System) (databaseName schemaName : string) : list Table :=
  d ← filter (λ d, Database_Name d = databaseName) (System_Databases sys);
  s ← filter (λ s, Schema_Name s = schemaName) (Database_Schemas d);
  Schema_Tables s.

(** [FindTable]; the catalog file has been read into [sys]. *)
Definition FindTable (sys : System) (fullTableName : string) : result Table :=
  match Strings.Split fullTableName "." with
  | systemName :: databaseName :: schemaName :: tableName :: _ =>
      if negb (String.eqb (System_Name sys) systemName) then Err "cannot find system name"
      else
        match List.find (λ t, String.eqb (Table_Name t) tableName)
                (tablesOf sys databaseName schemaName) with
        | Some t => Ok t
        | None => Err "cannot find table"
        end
  | _ => Panic "runtime error: index out of range"
  end.

(** The loop of [FindField]: [field] is the variable that the loop assigns. *)
Fixpoint findFieldLoop (fields : list Field) (fieldName : string) (field : Field) : Field :=
  match fields with
  | [] => field
  | f :: rest =>
      if String.eqb (Field_Name f) fieldName then f
      else findFieldLoop rest fieldName f
  end.

(** [FindField]: after the loop the function returns [field] and a nil
    error, whether a name matched or not. *)
Definition FindField (sys : System) (fullTableName fieldName : string) : result Field :=
  table ← FindTable sys fullTableName;
  Ok (findFieldLoop (Table_Fields table) fieldName zeroField).

End Catalog.

(** ** Package data: the rows generated for a plan

    A row has a group part and a payload part; each is a Cap'n Proto
    structure with one getter and one setter per field.  A structure is the
    finite map from the name of the getter to the value of the field. *)

Module Data.

Definition exportName (name : string) : string :=
  match name with
  | EmptyString => ""
  | String c s' => Utility.upperByte c +:+ s'
  end.

(** A new structure for the given fields: every field at its zero value. *)
Definition newStruct (fields : list Field) : gmap string Value :=
  list_to_map (List.map (λ f, (exportName (Field_Name f), zeroValue (Field_Type f))) fields).

Record Row := {
  Row_Group : gmap string Value;
  Row_Payload : gmap string Value
}.

(** The field lists of the generated structures: [CapnpStructGroup] and
    [CapnpStructIngressRow] take the fields of the ingress node, and both
    [CapnpStructAggregateRow] and [CapnpStructEgressRow] the fields of the
    aggregate node. *)
Record Schemas := {
  Group_Fields : list Field;
  IngressPayload_Fields : list Field;
  AggregatePayload_Fields : list Field;
  EgressPayload_Fields : list Field
}.

End Data.

Export Data.

(** ** The parse tree of a query ([UQL.g4])

    The constructors are named after the contexts of the generated parser;
    token texts are kept as strings. *)

Module Parser.

Inductive mulToken := UQLParserMUL | UQLParserDIV | UQLParserMOD.
Inductive addToken := UQLParserADD | UQLParserSUB.
Inductive cmpToken :=
  UQLParserLT | UQLParserLT_EQ | UQLParserEQ | UQLParserNOT_EQ | UQLParserGT_EQ | UQLParserGT.
Inductive connToken := UQLParserAND | UQLParserOR.
Inductive unitToken := UQLParserMILLISECONDS | UQLParserSECONDS | UQLParserMINUTES.
Inductive clusivityToken := UQLParserEXCLUSIVE | UQLParserINCLUSIVE.

Definition unitText (u : unitToken) : string :=
  match u with
  | UQLParserMILLISECONDS => "milliseconds"
  | UQLParserSECONDS => "seconds"
  | UQLParserMINUTES => "minutes"
  end.

Record DurationContext := { Duration_Amount : string; Duration_Unit : unitToken }.
Record DistanceContext := { Distance_Amount : string }.

Inductive AtomContext :=
| FloatContext (text : string)
| IntegerContext (text : string)
| StringContext (text : string)
| TimestampContext (text : string)
| VariableContext (text : string).

Inductive TermContext :=
| IgnoreMeDurationContext (d : DurationContext)
| IgnoreMeBasicContext (a : AtomContext)
| MulDivModContext (op : mulToken) (left right : TermContext)
| AddSubContext (op : addToken) (left right : TermContext)
| ParenthesisContext (t : TermContext).

Inductive ExpressionContext :=
| EquationContext (op : cmpToken) (left right : TermContext)
| NegationContext (e : ExpressionContext)
| ConnectionContext (op : connToken) (left right : ExpressionContext).

Inductive SliceSize :=
| SliceDuration (d : DurationContext)
| SliceDistance (d : DistanceContext).

Inductive WindowClauseContext :=
| SliceWindowContext (size : SliceSize) (sequenceField : option string)
| SlideWindowContext (s a : DurationContext)
| SessionWindowContext (open : ExpressionContext) (close : ExpressionContext)
    (clusivity : clusivityToken) (life : DurationContext).

Inductive AggregateContext :=
| AggregateAverageContext (fieldName : string)
| AggregateCountContext (fieldName : string)
| AggregateCountWithoutAsteriskContext
| AggregateDistinctCountContext (fieldName : string)
| AggregateFirstContext (fieldName : string)
| AggregateGroupContext (fieldName : string)
| AggregateLastContext (fieldName : string)
| AggregateMaximumContext (fieldName : string)
| AggregateMeanContext (fieldName : string)
| AggregateMinimumContext (fieldName : string)
| AggregateSumContext (fieldName : string)
| AggregateUniqueContext (fieldName : string)
| AggregateReasonForWindowCloseContext.

(** [aggregate AS fieldName] *)
Record AggregationContext := { Aggregation_Aggregate : AggregateContext; Aggregation_FieldName : string }.

Record QueryClauseContext := {
  FromClause : string;
  GroupClause : option (list string);
  IngressWhereClause : option ExpressionContext;
  WindowClause : WindowClauseContext;
  AggregateClause : list AggregationContext;
  AggregateWhereClause : option ExpressionContext;
  AppendClause : list string;
  ProjectWhereClause : option ExpressionContext;
  ToClause : string
}.

End Parser.

Export Parser.

(** ** Package codegen *)

Module Codegen.

Definition nl : string := String (ascii_of_N 10) "".
Definition dq : string := String (ascii_of_N 34) "".

Definition GoCodeVariablePrefix : string := "p".

Inductive Kind := Boolean | Duration | Float | Integer | String_ | Timestamp | Variable_.

Global Instance Kind_eq_dec : EqDecision Kind.
Proof. solve_decision. Defined.

Record GoExpression := { Code : string; Kind_ : Kind }.

Record goCodeItem := {
  Functions : list string;
  Condition : string;
  Definitions_ : list string
}.

Definition zeroItem : goCodeItem := {| Functions := []; Condition := ""; Definitions_ := [] |}.

Record GoCode := {
  ExprStack : list GoExpression;
  Definitions : list string;
  VariableCounter : Z;
  IngressFilter : goCodeItem;
  AggregateFilter : goCodeItem;
  ProjectFilter : goCodeItem;
  SessionOpen : goCodeItem;
  SessionClose : goCodeItem
}.

Definition zeroGoCode : GoCode :=
  {| ExprStack := []; Definitions := []; VariableCounter := 0;
     IngressFilter := zeroItem; AggregateFilter := zeroItem; ProjectFilter := zeroItem;
     SessionOpen := zeroItem; SessionClose := zeroItem |}.

Inductive FilterType := IngressFilterType | AggregateFilterType | ProjectFilterType.

(** [GoEval]: the text of the function that evaluates a condition. *)
Definition GoEval (filterName payloadName : string) (list : list string) (body : string) : string :=
  let header := String.concat "" list in
  let foundErr := existsb (λ v, Strings.Contains v "err != nil") list in
  let header := if foundErr then "var err error" +:+ nl +:+ header else header in
  nl +:+ "func eval" +:+ filterName +:+ "Filter(" +:+ GoCodeVariablePrefix +:+ " Internal"
     +:+ payloadName +:+ "Payload) (pass bool) {" +:+ nl
     +:+ header
     +:+ "pass = " +:+ body +:+ nl
     +:+ "return" +:+ nl
     +:+ "}" +:+ nl.

Definition GoPassthroughEvalFunction (filterName payloadName : string) : string :=
  "// eval" +:+ filterName +:+ "Filter never blocks a row in the " +:+ filterName +:+ " filter." +:+ nl
    +:+ "func eval" +:+ filterName +:+ "Filter(payload Internal" +:+ payloadName +:+ "Payload) (pass bool) {" +:+ nl
    +:+ "return true" +:+ nl
    +:+ "}" +:+ nl.

Definition addFunction (f : string) (it : goCodeItem) : goCodeItem :=
  {| Functions := Functions it ++ [f]; Condition := Condition it; Definitions_ := Definitions_ it |}.

Definition setCondition (c : string) (it : goCodeItem) : goCodeItem :=
  {| Functions := Functions it; Condition := c; Definitions_ := Definitions_ it |}.

End Codegen.

Export Codegen.

(** ** Package compiler *)

Module Compiler.

Definition WindowType : string := "window_type".
Definition IntervalType : string := "interval_type".
Definition IntervalAmount : string := "interval_amount".
Definition IntervalUnit : string := "interval_unit".
Definition SessionCloseInclusive : string := "session_close_inclusive".
Definition SequenceFieldName : string := "sequence_field_name".

Definition WindowTypeSession : string := "session".
Definition WindowTypeSlice : string := "slice".
Definition IntervalTypeDistance : string := "distance".
Definition IntervalTypeTime : string := "time".

Record queryListener := {
  queryPlan : Plan;
  goCode : GoCode;
  hasIngressFilter : bool;
  hasAggregateFilter : bool;
  hasProjectFilter : bool;
  hasSessionWindow : bool;
  sliceIntervalTypeIsDistance : bool;
  inputTableFullName : string;
  aggregateAliasFieldName : string;
  sequenceFieldName : string;
  groupFieldNames : list string;
  filterType : FilterType;
  calls : list Call
}.

(** *** Assignments to the members of the listener *)

Definition withPlan (f : Plan → Plan) (l : queryListener) : queryListener :=
  {| queryPlan := f (queryPlan l); goCode := goCode l;
     hasIngressFilter := hasIngressFilter l; hasAggregateFilter := hasAggregateFilter l;
     hasProjectFilter := hasProjectFilter l; hasSessionWindow := hasSessionWindow l;
     sliceIntervalTypeIsDistance := sliceIntervalTypeIsDistance l;
     inputTableFullName := inputTableFullName l;
     aggregateAliasFieldName := aggregateAliasFieldName l;
     sequenceFieldName := sequenceFieldName l; groupFieldNames := groupFieldNames l;
     filterType := filterType l; calls := calls l |}.

Definition withGoCode (f : GoCode → GoCode) (l : queryListener) : queryListener :=
  {| queryPlan := queryPlan l; goCode := f (goCode l);
     hasIngressFilter := hasIngressFilter l; hasAggregateFilter := hasAggregateFilter l;
     hasProjectFilter := hasProjectFilter l; hasSessionWindow := hasSessionWindow l;
     sliceIntervalTypeIsDistance := sliceIntervalTypeIsDistance l;
     inputTableFullName := inputTableFullName l;
     aggregateAliasFieldName := aggregateAliasFieldName l;
     sequenceFieldName := sequenceFieldName l; groupFieldNames := groupFieldNames l;
     filterType := filterType l; calls := calls l |}.

(** The five flags, in the order of their declaration. *)
Definition withFlags (f : bool * bool * bool * bool * bool → bool * bool * bool * bool * bool)
    (l : queryListener) : queryListener :=
  let '(a, b, c, d, e) :=
    f (hasIngressFilter l, hasAggregateFilter l, hasProjectFilter l, hasSessionWindow l,
       sliceIntervalTypeIsDistance l) in
  {| queryPlan := queryPlan l; goCode := goCode l;
     hasIngressFilter := a; hasAggregateFilter := b; hasProjectFilter := c;
     hasSessionWindow := d; sliceIntervalTypeIsDistance := e;
     inputTableFullName := inputTableFullName l;
     aggregateAliasFieldName := aggregateAliasFieldName l;
     sequenceFieldName := sequenceFieldName l; groupFieldNames := groupFieldNames l;
     filterType := filterType l; calls := calls l |}.

(** The names: the input table, the alias of the current aggregation, the
    sequence field and the group fields. *)
Definition withNames (table alias sequence : string) (groups : list string)
    (l : queryListener) : queryListener :=
  {| queryPlan := queryPlan l; goCode := goCode l;
     hasIngressFilter := hasIngressFilter l; hasAggregateFilter := hasAggregateFilter l;
     hasProjectFilter := hasProjectFilter l; hasSessionWindow := hasSessionWindow l;
     sliceIntervalTypeIsDistance := sliceIntervalTypeIsDistance l;
     inputTableFullName := table; aggregateAliasFieldName := alias;
     sequenceFieldName := sequence; groupFieldNames := groups;
     filterType := filterType l; calls := calls l |}.

Definition setFilterType (t : FilterType) (l : queryListener) : queryListener :=
  {| queryPlan := queryPlan l; goCode := goCode l;
     hasIngressFilter := hasIngressFilter l; hasAggregateFilter := hasAggregateFilter l;
     hasProjectFilter := hasProjectFilter l; hasSessionWindow := hasSessionWindow l;
     sliceIntervalTypeIsDistance := sliceIntervalTypeIsDistance l;
     inputTableFullName := inputTableFullName l;
     aggregateAliasFieldName := aggregateAliasFieldName l;
     sequenceFieldName := sequenceFieldName l; groupFieldNames := groupFieldNames l;
     filterType := t; calls := calls l |}.

Definition setCalls (cs : list Call) (l : queryListener) : queryListener :=
  {| queryPlan := queryPlan l; goCode := goCode l;
     hasIngressFilter := hasIngressFilter l; hasAggregateFilter := hasAggregateFilter l;
     hasProjectFilter := hasProjectFilter l; hasSessionWindow := hasSessionWindow l;
     sliceIntervalTypeIsDistance := sliceIntervalTypeIsDistance l;
     inputTableFullName := inputTableFullName l;
     aggregateAliasFieldName := aggregateAliasFieldName l;
     sequenceFieldName := sequenceFieldName l; groupFieldNames := groupFieldNames l;
     filterType := filterType l; calls := cs |}.

Definition setInputTableFullName (s : string) (l : queryListener) : queryListener :=
  withNames s (aggregateAliasFieldName l) (sequenceFieldName l) (groupFieldNames l) l.
Definition setAggregateAliasFieldName (s : string) (l : queryListener) : queryListener :=
  withNames (inputTableFullName l) s (sequenceFieldName l) (groupFieldNames l) l.
Definition setSequenceFieldName (s : string) (l : queryListener) : queryListener :=
  withNames (inputTableFullName l) (aggregateAliasFieldName l) s (groupFieldNames l) l.
Definition setGroupFieldNames (g : list string) (l : queryListener) : queryListener :=
  withNames (inputTableFullName l) (aggregateAliasFieldName l) (sequenceFieldName l) g l.

Definition setExprStack (st : list GoExpression) (c : GoCode) : GoCode :=
  {| ExprStack := st; Definitions := Definitions c; VariableCounter := VariableCounter c;
     IngressFilter := IngressFilter c; AggregateFilter := AggregateFilter c;
     ProjectFilter := ProjectFilter c; SessionOpen := SessionOpen c;
     SessionClose := SessionClose c |}.

Definition setDefinitions (ds : list string) (c : GoCode) : GoCode :=
  {| ExprStack := ExprStack c; Definitions := ds; VariableCounter := VariableCounter c;
     IngressFilter := IngressFilter c; AggregateFilter := AggregateFilter c;
     ProjectFilter := ProjectFilter c; SessionOpen := SessionOpen c;
     SessionClose := SessionClose c |}.

Definition setVariableCounter (n : Z) (c : GoCode) : GoCode :=
  {| ExprStack := ExprStack c; Definitions := Definitions c; VariableCounter := n;
     IngressFilter := IngressFilter c; AggregateFilter := AggregateFilter c;
     ProjectFilter := ProjectFilter c; SessionOpen := SessionOpen c;
     SessionClose := SessionClose c |}.

(** The five code items, in the order of their declaration. *)
Definition withItems
    (f : goCodeItem * goCodeItem * goCodeItem * goCodeItem * goCodeItem →
         goCodeItem * goCodeItem * goCodeItem * goCodeItem * goCodeItem)
    (c : GoCode) : GoCode :=
  let '(i, a, p, so, sc) :=
    f (IngressFilter c, AggregateFilter c, ProjectFilter c, SessionOpen c, SessionClose c) in
  {| ExprStack := ExprStack c; Definitions := Definitions c;
     VariableCounter := VariableCounter c;
     IngressFilter := i; AggregateFilter := a; ProjectFilter := p;
     SessionOpen := so; SessionClose := sc |}.

(** *** The plan template *)

Definition newNode (typ : OperatorType) (label : string) (id : Z) : Node :=
  {| Node_Id := id; Node_Label := label; Node_Type := typ; Node_Properties := [];
     Node_FieldsPtr := None; Node_GroupFieldsPtr := None; Node_Calls := [] |}.

Definition NewQueryPlanTemplate : Plan :=
  [ newNode OperatorType_egress "Egress" 0;
    newNode OperatorType_projectFilter "Project Filter" 1;
    newNode OperatorType_project "Project" 2;
    newNode OperatorType_aggregateFilter "Aggregate Filter" 3;
    newNode OperatorType_aggregate "Aggregate" 4;
    newNode OperatorType_window "Window" 5;
    newNode OperatorType_ingressFilter "Ingress Filter" 6;
    newNode OperatorType_ingress "Ingress" 7 ].

Definition findNode (l : queryListener) (typ : OperatorType) : result Node :=
  match FindFirstNodeByType (queryPlan l) typ with
  | Some node => Ok node
  | None => Panic "could not find operator"
  end.

(** *** The stack of expressions *)

Definition push (tuple : GoExpression) (l : queryListener) : queryListener :=
  withGoCode (λ c, setExprStack (ExprStack c ++ [tuple]) c) l.

Definition pop (l : queryListener) : result (GoExpression * queryListener) :=
  match reverse (ExprStack (goCode l)) with
  | [] => Panic "stack is empty; unable to pop"
  | top :: below => Ok (top, withGoCode (setExprStack (reverse below)) l)
  end.

(** *** Copies of field lists *)

Definition copyField (oldField newField : Field) : Field :=
  {| Field_Name := Field_Name oldField;
     Field_Description := Field_Description newField;
     Field_Type := Field_Type oldField;
     Field_Usage := Field_Usage oldField;
     Field_Properties := Field_Properties oldField |}.

(** [copyFieldsHelper]; the two lists have the same length at every call. *)
Fixpoint copyFieldsHelper (oldFields newFields : list Field) : list Field :=
  match oldFields, newFields with
  | o :: oldFields', n :: newFields' => copyField o n :: copyFieldsHelper oldFields' newFields'
  | _, _ => newFields
  end.

Definition copyFields (from to : OperatorType) (l : queryListener) : result queryListener :=
  fromNode ← findNode l from;
  _ ← findNode l to;
  if negb (Node_HasFields fromNode) then Ok l
  else
    let oldFields := Node_Fields fromNode in
    let newFields := replicate (length oldFields) zeroField in
    Ok (withPlan (updateNode to (Node_SetFields (copyFieldsHelper oldFields newFields))) l).

Definition copyGroupFields (from to : OperatorType) (l : queryListener) : result queryListener :=
  fromNode ← findNode l from;
  _ ← findNode l to;
  if negb (Node_HasGroupFields fromNode) then Ok l
  else
    let oldFields := Node_GroupFields fromNode in
    let newFields := replicate (length oldFields) zeroField in
    Ok (withPlan (updateNode to (Node_SetGroupFields (copyFieldsHelper oldFields newFields))) l).

(** *** Expressions *)

Definition timeAddSub (token : addToken) (timestamp duration : string) : string :=
  let method := match token with UQLParserADD => "Add" | UQLParserSUB => "Sub" end in
  timestamp +:+ "." +:+ method +:+ "(" +:+ duration +:+ ")".

Definition timeCompare (token : cmpToken) (timestamp1 timestamp2 : string) : string :=
  let cmp :=
    match token with
    | UQLParserLT => " == -1"
    | UQLParserLT_EQ => " <= 0"
    | UQLParserEQ => " == 0"
    | UQLParserNOT_EQ => " != 0"
    | UQLParserGT_EQ => " >= 0"
    | UQLParserGT => " > 0"
    end in
  timestamp1 +:+ ".Compare(" +:+ timestamp2 +:+ ")" +:+ cmp.

Definition defaultCompare (token : cmpToken) (lhs rhs : string) : string :=
  let cmp :=
    match token with
    | UQLParserLT => " < "
    | UQLParserLT_EQ => " <= "
    | UQLParserEQ => " == "
    | UQLParserNOT_EQ => " != "
    | UQLParserGT_EQ => " >= "
    | UQLParserGT => " > "
    end in
  lhs +:+ cmp +:+ rhs.

Definition ExitEquation (op : cmpToken) (l : queryListener) : result queryListener :=
  '(rhs, l) ← pop l;
  '(lhs, l) ← pop l;
  let t :=
    if bool_decide (Kind_ lhs = Timestamp ∨ Kind_ rhs = Timestamp) then
      {| Code := timeCompare op (Code lhs) (Code rhs); Kind_ := Timestamp |}
    else
      {| Code := defaultCompare op (Code lhs) (Code rhs); Kind_ := Kind_ lhs |} in
  Ok (push t l).

Definition ExitConnection (op : connToken) (l : queryListener) : result queryListener :=
  '(rhs, l) ← pop l;
  '(lhs, l) ← pop l;
  let code :=
    match op with
    | UQLParserAND => Code lhs +:+ " && " +:+ Code rhs
    | UQLParserOR => Code lhs +:+ " || " +:+ Code rhs
    end in
  Ok (push {| Code := code; Kind_ := Kind_ rhs |} l).

Definition ExitParenthesis (l : queryListener) : result queryListener :=
  '(term, l) ← pop l;
  Ok (push {| Code := "(" +:+ Code term +:+ ")"; Kind_ := Kind_ term |} l).

Definition ExitNegation (l : queryListener) : result queryListener :=
  '(term, l) ← pop l;
  Ok (push {| Code := "!(" +:+ Code term +:+ ")"; Kind_ := Kind_ term |} l).

Definition ExitMulDivMod (op : mulToken) (l : queryListener) : result queryListener :=
  '(rhs, l) ← pop l;
  '(lhs, l) ← pop l;
  let code :=
    match op with
    | UQLParserMUL => Code lhs +:+ " * " +:+ Code rhs
    | UQLParserDIV => Code lhs +:+ " / " +:+ Code rhs
    | UQLParserMOD => Code lhs +:+ " % " +:+ Code rhs
    end in
  Ok (push {| Code := code; Kind_ := Kind_ rhs |} l).

Definition ExitAddSub (op : addToken) (l : queryListener) : result queryListener :=
  '(rhs, l) ← pop l;
  '(lhs, l) ← pop l;
  let t :=
    if bool_decide (Kind_ lhs ≠ Duration ∧ Kind_ rhs = Duration) then
      {| Code := timeAddSub op (Code lhs) (Code rhs); Kind_ := Timestamp |}
    else if bool_decide (Kind_ lhs = Duration ∧ Kind_ rhs ≠ Duration) then
      {| Code := timeAddSub op (Code rhs) (Code lhs); Kind_ := Timestamp |}
    else
      {| Code := match op with
                 | UQLParserADD => Code lhs +:+ " + " +:+ Code rhs
                 | UQLParserSUB => Code lhs +:+ " - " +:+ Code rhs
                 end;
         Kind_ := Kind_ rhs |} in
  Ok (push t l).

Definition ExitFloat (text : string) (l : queryListener) : queryListener :=
  push {| Code := text; Kind_ := Float |} l.

Definition ExitInteger (text : string) (l : queryListener) : queryListener :=
  push {| Code := text; Kind_ := Integer |} l.

Definition ExitString (text : string) (l : queryListener) : queryListener :=
  push {| Code := text; Kind_ := String_ |} l.

(** The loop of [ExitVariable] over the fields of the node: whether the
    name was found and whether the field found has the usage [time]. *)
Fixpoint lookupVariable (fields : list Field) (variableName : string) : bool * bool :=
  match fields with
  | [] => (false, false)
  | field :: rest =>
      if String.eqb (Field_Name field) variableName
      then (true, bool_decide (Field_Usage field = FieldUsage_time))
      else lookupVariable rest variableName
  end.

Definition ExitVariable (text : string) (l : queryListener) : result queryListener :=
  node ← match filterType l with
         | IngressFilterType => findNode l OperatorType_ingress
         | AggregateFilterType => findNode l OperatorType_aggregate
         | ProjectFilterType => findNode l OperatorType_project
         end;
  let '(foundVariable, isTimeType) := lookupVariable (Node_Fields node) text in
  if negb foundVariable then
    Panic ("could not find variable name " +:+ text +:+ " in node " +:+ Node_Label node)
  else
    let kind := if isTimeType then Timestamp else Variable_ in
    Ok (push {| Code := GoCodeVariablePrefix +:+ "." +:+ text; Kind_ := kind |} l).

Definition ExitTimestamp (text : string) (l : queryListener) : queryListener :=
  let variable := "timestamp" +:+ Strconv.FormatInt (VariableCounter (goCode l)) in
  let l := withGoCode (λ c, setVariableCounter (wrap64 (VariableCounter c + 1)) c) l in
  let l := push {| Code := variable; Kind_ := Timestamp |} l in
  let s := dq +:+ substring 1 (String.length text - 2) text +:+ dq in
  let head :=
    "var " +:+ variable +:+ " time.Time" +:+ nl
    +:+ "if " +:+ variable +:+ ", err = time.Parse(time.RFC3339Nano, " +:+ s +:+ "); err != nil {" +:+ nl
    +:+ String (ascii_of_N 9) "panic(err)" +:+ nl
    +:+ "}" +:+ nl in
  withGoCode (λ c, setDefinitions (Definitions c ++ [head]) c) l.

Definition ExitDistance (l : queryListener) : queryListener :=
  withFlags (λ '(a, b, c, d, _), (a, b, c, d, true)) l.

Definition ExitDuration (ctx : DurationContext) (l : queryListener) : result queryListener :=
  let quantity := Duration_Amount ctx in
  let unit := unitText (Duration_Unit ctx) in
  timeUnit ← (if String.eqb unit "minutes" then Ok "time.Minute"
              else if String.eqb unit "seconds" then Ok "time.Second"
              else Panic ("unknown time unit: " +:+ unit));
  let variable := "duration" +:+ Strconv.FormatInt (VariableCounter (goCode l)) in
  let l := withGoCode (λ c, setVariableCounter (wrap64 (VariableCounter c + 1)) c) l in
  let l := push {| Code := variable; Kind_ := Duration |} l in
  let head := variable +:+ " := time.Duration(" +:+ quantity +:+ " * " +:+ timeUnit +:+ ")" +:+ nl in
  Ok (withGoCode (λ c, setDefinitions (Definitions c ++ [head]) c) l).

(** The walk of the tree calls the exit function of a context after the
    walk of its children. *)
Definition walkAtom (a : AtomContext) (l : queryListener) : result queryListener :=
  match a with
  | FloatContext text => Ok (ExitFloat text l)
  | IntegerContext text => Ok (ExitInteger text l)
  | StringContext text => Ok (ExitString text l)
  | TimestampContext text => Ok (ExitTimestamp text l)
  | VariableContext text => ExitVariable text l
  end.

Fixpoint walkTerm (t : TermContext) (l : queryListener) : result queryListener :=
  match t with
  | IgnoreMeDurationContext d => ExitDuration d l
  | IgnoreMeBasicContext a => walkAtom a l
  | MulDivModContext op lhs rhs =>
      l ← walkTerm lhs l; l ← walkTerm rhs l; ExitMulDivMod op l
  | AddSubContext op lhs rhs =>
      l ← walkTerm lhs l; l ← walkTerm rhs l; ExitAddSub op l
  | ParenthesisContext t' =>
      l ← walkTerm t' l; ExitParenthesis l
  end.

Fixpoint walkExpression (e : ExpressionContext) (l : queryListener) : result queryListener :=
  match e with
  | EquationContext op lhs rhs =>
      l ← walkTerm lhs l; l ← walkTerm rhs l; ExitEquation op l
  | NegationContext e' =>
      l ← walkExpression e' l; ExitNegation l
  | ConnectionContext op lhs rhs =>
      l ← walkExpression lhs l; l ← walkExpression rhs l; ExitConnection op l
  end.

Definition ExitWhereClause (l : queryListener) : result queryListener :=
  '(top, l) ← pop l;
  let code := Code top in
  Ok (withGoCode (withItems (λ '(i, a, p, so, sc),
        match filterType l with
        | IngressFilterType => (setCondition code i, a, p, so, sc)
        | AggregateFilterType => (i, setCondition code a, p, so, sc)
        | ProjectFilterType => (i, a, setCondition code p, so, sc)
        end)) l).

Definition ExitIngressWhereClause (l : queryListener) : queryListener :=
  withFlags (λ '(_, b, c, d, e), (true, b, c, d, e)) l.
Definition ExitAggregateWhereClause (l : queryListener) : queryListener :=
  withFlags (λ '(a, _, c, d, e), (a, true, c, d, e)) l.
Definition ExitProjectWhereClause (l : queryListener) : queryListener :=
  withFlags (λ '(a, b, _, d, e), (a, b, true, d, e)) l.

(** *** Clauses *)

Section WithCatalog.

(** The catalog stored at [CatalogFilePath]. *)
Variable sys : System.

Definition ExitFromClause (tableName : string) (l : queryListener) : result queryListener :=
  _ ← findNode l OperatorType_ingress;
  let l := setInputTableFullName tableName l in
  table ← orPanic (Catalog.FindTable sys (inputTableFullName l));
  let l := withPlan (updateNode OperatorType_ingress (Node_SetFields (Table_Fields table))) l in
  l ← copyFields OperatorType_ingress OperatorType_ingressFilter l;
  l ← copyFields OperatorType_ingress OperatorType_window l;
  Ok (setFilterType IngressFilterType l).

(** [addAggregateFunction]; [outputType] is [None] for a nil pointer. *)
Definition addAggregateFunction (functionName inputFieldName : string)
    (outputType : option FieldType) (l : queryListener) : result queryListener :=
  field ← orPanic (Catalog.FindField sys (inputTableFullName l) inputFieldName);
  let inputFieldType := Field_Type field in
  let outputFieldType :=
    match outputType with
    | Some t => t
    | None => inputFieldType
    end in
  let function :=
    {| Function_Name := functionName; Function_IsAggregate := true;
       Function_IsBuiltIn := true; Function_InputTypes := [inputFieldType];
       Function_OutputType := outputFieldType;
       Function_OutputName := aggregateAliasFieldName l |} in
  let outputField :=
    {| Field_Name := aggregateAliasFieldName l; Field_Description := "";
       Field_Type := outputFieldType; Field_Usage := FieldUsage_data;
       Field_Properties := [] |} in
  let call :=
    {| Call_Function := function; Call_InputFields := [field];
       Call_OutputField := outputField |} in
  Ok (setCalls (calls l ++ [call]) l).

Definition ExitAggregateAverage (fieldName : string) : queryListener → result queryListener :=
  addAggregateFunction "average" fieldName (Some FieldType_float64).

Definition ExitAggregateCount (fieldName : string) : queryListener → result queryListener :=
  addAggregateFunction "count" "N/A -- count(*)" (Some FieldType_integer64).

Definition ExitAggregateSum (fieldName : string) : queryListener → result queryListener :=
  addAggregateFunction "sum" fieldName None.

Definition ExitAggregateFirst (fieldName : string) : queryListener → result queryListener :=
  addAggregateFunction "first" fieldName None.

Definition ExitAggregateLast (fieldName : string) : queryListener → result queryListener :=
  addAggregateFunction "last" fieldName None.

End WithCatalog.

(** The field that the loops of [ExitGroupClause] leave at one index of
    the group fields. *)
Definition groupFieldFor (fields : list Field) (groupFieldName : string) : Field :=
  fold_left (λ slot field, if String.eqb (Field_Name field) groupFieldName then field else slot)
            fields zeroField.

Definition ExitGroupClause (allGroups : list string) (l : queryListener) : result queryListener :=
  let l := setGroupFieldNames (groupFieldNames l ++ allGroups) l in
  node ← findNode l OperatorType_ingress;
  let fields := Node_Fields node in
  let groupFields := List.map (groupFieldFor fields) (groupFieldNames l) in
  Ok (withPlan (updateNode OperatorType_ingress (Node_SetGroupFields groupFields)) l).

Definition ExitSequenceFieldClause (fieldName : string) (l : queryListener) : queryListener :=
  setSequenceFieldName fieldName l.

(** [SetWindowNodeProperties]: seven properties are allocated and all but
    the one at index 4 are set. *)
Definition SetWindowNodeProperties
    (windowType intervalType intervalAmount intervalUnit sessionCloseInclusive
       sequenceFieldName : string) (windowNode : Node) : Node :=
  Node_SetProperties
    [ {| Property_Key := WindowType; Property_Value := windowType |};
      {| Property_Key := IntervalType; Property_Value := intervalType |};
      {| Property_Key := IntervalAmount; Property_Value := intervalAmount |};
      {| Property_Key := IntervalUnit; Property_Value := intervalUnit |};
      zeroProperty;
      {| Property_Key := SessionCloseInclusive; Property_Value := sessionCloseInclusive |};
      {| Property_Key := SequenceFieldName; Property_Value := sequenceFieldName |} ]
    windowNode.

Definition setWindow (windowType intervalType intervalAmount intervalUnit
    sessionCloseInclusive : string) (l : queryListener) : result queryListener :=
  _ ← findNode l OperatorType_window;
  Ok (withPlan (updateNode OperatorType_window
        (SetWindowNodeProperties windowType intervalType intervalAmount intervalUnit
           sessionCloseInclusive (sequenceFieldName l))) l).

Definition ExitSessionOpen (l : queryListener) : result queryListener :=
  '(tuple, l) ← pop l;
  Ok (withGoCode (withItems (λ '(i, a, p, so, sc), (i, a, p, setCondition (Code tuple) so, sc))) l).

Definition ExitSessionClose (clusivity : clusivityToken) (l : queryListener) : result queryListener :=
  '(tuple, l) ← pop l;
  let l := withGoCode (withItems (λ '(i, a, p, so, sc), (i, a, p, so, setCondition (Code tuple) sc))) l in
  let sessionCloseInclusive :=
    match clusivity with
    | UQLParserINCLUSIVE => "true"
    | UQLParserEXCLUSIVE => "false"
    end in
  setWindow "session" "N/A" "N/A" "N/A" sessionCloseInclusive l.

Definition EnterSessionWindow (l : queryListener) : queryListener :=
  withFlags (λ '(a, b, c, _, e), (a, b, c, true, e)) l.

Definition ExitSessionWindow (l : queryListener) : queryListener :=
  withGoCode (setDefinitions []) l.

Definition ExitSliceWindow (size : SliceSize) (l : queryListener) : result queryListener :=
  if sliceIntervalTypeIsDistance l then
    match size with
    | SliceDistance distance =>
        setWindow WindowTypeSlice IntervalTypeDistance (Distance_Amount distance) "rows" "false" l
    | SliceDuration _ => Panic "invalid memory address or nil pointer dereference"
    end
  else
    '(_, l) ← pop l;
    let l := withGoCode (setDefinitions []) l in
    match size with
    | SliceDuration duration =>
        let intervalUnit := unitText (Duration_Unit duration) in
        intervalType ←
          (if bool_decide (intervalUnit ∈ ["milliseconds"; "seconds"; "minutes"]) then Ok IntervalTypeTime
           else if String.eqb intervalUnit "rows" then Ok IntervalTypeDistance
           else Panic ("cannot find appropriate interval type for unit: " +:+ intervalUnit));
        setWindow WindowTypeSlice intervalType (Duration_Amount duration) intervalUnit "false" l
    | SliceDistance _ => Panic "invalid memory address or nil pointer dereference"
    end.

Definition walkWindowClause (w : WindowClauseContext) (l : queryListener) : result queryListener :=
  match w with
  | SliceWindowContext size sequenceField =>
      l ← match size with
          | SliceDuration d => ExitDuration d l
          | SliceDistance _ => Ok (ExitDistance l)
          end;
      let l := match sequenceField with
               | Some fieldName => ExitSequenceFieldClause fieldName l
               | None => l
               end in
      ExitSliceWindow size l
  | SlideWindowContext s a =>
      l ← ExitDuration s l; ExitDuration a l
  | SessionWindowContext open close clusivity life =>
      let l := EnterSessionWindow l in
      l ← walkExpression open l;
      l ← ExitSessionOpen l;
      l ← walkExpression close l;
      l ← ExitSessionClose clusivity l;
      l ← ExitDuration life l;
      Ok (ExitSessionWindow l)
  end.

Definition EnterAggregation (ctx : AggregationContext) (l : queryListener) : queryListener :=
  setAggregateAliasFieldName (Aggregation_FieldName ctx) l.

(** The listener has an exit function for five of the alternatives of
    [aggregate]; the walk of another alternative changes nothing. *)
Definition walkAggregate (sys : System) (a : AggregateContext) (l : queryListener) : result queryListener :=
  match a with
  | AggregateAverageContext fieldName => ExitAggregateAverage sys fieldName l
  | AggregateCountContext fieldName => ExitAggregateCount sys fieldName l
  | AggregateSumContext fieldName => ExitAggregateSum sys fieldName l
  | AggregateFirstContext fieldName => ExitAggregateFirst sys fieldName l
  | AggregateLastContext fieldName => ExitAggregateLast sys fieldName l
  | _ => Ok l
  end.

Definition walkAggregation (sys : System) (l : queryListener) (ctx : AggregationContext) : result queryListener :=
  walkAggregate sys (Aggregation_Aggregate ctx) (EnterAggregation ctx l).

Definition ExitAggregations (aggregations : list AggregationContext) (l : queryListener) : result queryListener :=
  let n := length aggregations in
  if negb (n =? length (calls l))%nat then Panic "number of aggregations are inconsistent"
  else
    _ ← findNode l OperatorType_aggregate;
    let l := withPlan (updateNode OperatorType_aggregate (Node_SetCalls (calls l))) l in
    let fields := List.map Call_OutputField (calls l) in
    Ok (withPlan (updateNode OperatorType_aggregate (Node_SetFields fields)) l).

Definition ExitAggregateClause (l : queryListener) : result queryListener :=
  l ← copyFields OperatorType_aggregate OperatorType_aggregateFilter l;
  Ok (setFilterType AggregateFilterType l).

(** The field that the loops of [EnterAppendClause] leave at one index of
    the fields of the project node: name and type of the fields of that
    name in the aggregate filter node. *)
Definition projectFieldFor (otherFields : list Field) (fieldName : string) : Field :=
  fold_left (λ newField otherField,
               if String.eqb (Field_Name otherField) fieldName then
                 {| Field_Name := Field_Name otherField;
                    Field_Description := Field_Description newField;
                    Field_Type := Field_Type otherField;
                    Field_Usage := Field_Usage newField;
                    Field_Properties := Field_Properties newField |}
               else newField)
            otherFields zeroField.

Definition EnterAppendClause (allProjections : list string) (l : queryListener) : result queryListener :=
  _ ← findNode l OperatorType_project;
  otherNode ← (match allProjections with
               | [] => Ok (newNode OperatorType_aggregateFilter "" 0)
               | _ => findNode l OperatorType_aggregateFilter
               end);
  let fields := List.map (projectFieldFor (Node_Fields otherNode)) allProjections in
  Ok (withPlan (updateNode OperatorType_project (Node_SetFields fields)) l).

Definition ExitAppendClause (l : queryListener) : result queryListener :=
  l ← copyFields OperatorType_project OperatorType_projectFilter l;
  Ok (setFilterType ProjectFilterType l).

Definition EnterToClause (l : queryListener) : result queryListener :=
  copyFields OperatorType_projectFilter OperatorType_egress l.

(** [ExitQueryClause]: the group fields of the ingress node go to the other
    nodes, and the evaluation function of each of the five filters is
    generated.  The other generated texts (payload types, translations,
    Cap'n Proto structures) are functions of the fields of the nodes and
    are written to files; they are left out. *)
Definition ExitQueryClause (l : queryListener) : result queryListener :=
  l ← copyGroupFields OperatorType_ingress OperatorType_ingressFilter l;
  l ← copyGroupFields OperatorType_ingress OperatorType_window l;
  l ← copyGroupFields OperatorType_ingress OperatorType_aggregate l;
  l ← copyGroupFields OperatorType_ingress OperatorType_aggregateFilter l;
  l ← copyGroupFields OperatorType_ingress OperatorType_project l;
  l ← copyGroupFields OperatorType_ingress OperatorType_projectFilter l;
  l ← copyGroupFields OperatorType_ingress OperatorType_egress l;
  let c := goCode l in
  let evalIngress :=
    if hasIngressFilter l
    then GoEval "Ingress" "Ingress" (Definitions_ (IngressFilter c)) (Condition (IngressFilter c))
    else GoPassthroughEvalFunction "Ingress" "Ingress" in
  let evalOpen :=
    if hasSessionWindow l
    then GoEval "SessionOpen" "Ingress" (Definitions_ (IngressFilter c)) (Condition (SessionOpen c))
    else GoPassthroughEvalFunction "SessionOpen" "Ingress" in
  let evalClose :=
    if hasSessionWindow l
    then GoEval "SessionClose" "Ingress" (Definitions_ (IngressFilter c)) (Condition (SessionClose c))
    else GoPassthroughEvalFunction "SessionClose" "Ingress" in
  let evalAggregate :=
    if hasAggregateFilter l
    then GoEval "Aggregate" "Aggregate" (Definitions_ (AggregateFilter c)) (Condition (AggregateFilter c))
    else GoPassthroughEvalFunction "Aggregate" "Aggregate" in
  let evalProject :=
    if hasProjectFilter l
    then GoEval "Project" "Egress" (Definitions_ (ProjectFilter c)) (Condition (ProjectFilter c))
    else GoPassthroughEvalFunction "Project" "Egress" in
  Ok (withGoCode (withItems (λ '(i, a, p, so, sc),
        (addFunction evalClose (addFunction evalOpen (addFunction evalIngress i)),
         addFunction evalAggregate a, addFunction evalProject p, so, sc))) l).

Definition walkWhere (e : option ExpressionContext) (exitClause : queryListener → queryListener)
    (l : queryListener) : result queryListener :=
  match e with
  | None => Ok l
  | Some e =>
      l ← walkExpression e l;
      l ← ExitWhereClause l;
      Ok (exitClause l)
  end.

(** The walk of a query clause, in the order of its children. *)
Definition walkQueryClause (sys : System) (q : QueryClauseContext) (l : queryListener) : result queryListener :=
  l ← ExitFromClause sys (FromClause q) l;
  l ← match GroupClause q with
      | Some allGroups => ExitGroupClause allGroups l
      | None => Ok l
      end;
  l ← walkWhere (IngressWhereClause q) ExitIngressWhereClause l;
  l ← walkWindowClause (WindowClause q) l;
  l ← foldM (walkAggregation sys) (AggregateClause q) l;
  l ← ExitAggregations (AggregateClause q) l;
  l ← ExitAggregateClause l;
  l ← walkWhere (AggregateWhereClause q) ExitAggregateWhereClause l;
  l ← EnterAppendClause (AppendClause q) l;
  l ← ExitAppendClause l;
  l ← walkWhere (ProjectWhereClause q) ExitProjectWhereClause l;
  l ← EnterToClause l;
  ExitQueryClause l.

Definition newListener : queryListener :=
  {| queryPlan := NewQueryPlanTemplate; goCode := zeroGoCode;
     hasIngressFilter := false; hasAggregateFilter := false; hasProjectFilter := false;
     hasSessionWindow := false; sliceIntervalTypeIsDistance := false;
     inputTableFullName := ""; aggregateAliasFieldName := ""; sequenceFieldName := "";
     groupFieldNames := []; filterType := IngressFilterType; calls := [] |}.

(** [parseQuery] after the parser has built the tree of the query. *)
Definition parseQuery (sys : System) (q : QueryClauseContext) : result queryListener :=
  walkQueryClause sys q newListener.

(** [FindCatalogFieldType]: the type of the first field of that name. *)
Definition FindCatalogFieldType (fields : list Field) (name : string) : FieldType :=
  match List.find (λ f, String.eqb (Field_Name f) name) fields with
  | Some f => Field_Type f
  | None => FieldType_boolean
  end.

(** The structures that the compiler writes to [data.capnp]:
    [CapnpStructGroup] and [CapnpStructIngressRow] from the fields of the
    ingress node, [CapnpStructAggregateRow] and [CapnpStructEgressRow] from
    the fields of the aggregate node. *)
Definition dataSchemas (l : queryListener) : Schemas :=
  let ingressFields := default [] (Node_Fields <$> FindFirstNodeByType (queryPlan l) OperatorType_ingress) in
  let aggregateFields := default [] (Node_Fields <$> FindFirstNodeByType (queryPlan l) OperatorType_aggregate) in
  let retype (f : Field) : Field :=
    {| Field_Name := Field_Name f; Field_Description := "";
       Field_Type := FindCatalogFieldType ingressFields (Field_Name f);
       Field_Usage := FieldUsage_data; Field_Properties := [] |} in
  {| Group_Fields :=
       fieldName ← groupFieldNames l;
       retype <$> filter (λ f, Field_Name f = fieldName) ingressFields;
     IngressPayload_Fields := retype <$> ingressFields;
     AggregatePayload_Fields := aggregateFields;
     EgressPayload_Fields := aggregateFields |}.

(** What the process of the compiler leaves behind: its exit status and
    the plan written to the standard output, if any. *)
Record Outcome := { exitStatus : Z; stdout : option Plan }.

(** [Compile], called from [main]: the plan is written after the walk; a
    panic ends the process with status 2 before anything is written. *)
Definition Compile (sys : System) (q : QueryClauseContext) : Outcome :=
  match parseQuery sys q with
  | Ok l => {| exitStatus := 0; stdout := Some (queryPlan l) |}
  | _ => {| exitStatus := 2; stdout := None |}
  end.

End Compiler.

(** ** Package functor: the aggregate functions

    The compiler emits calls of [average], [count], [sum], [first] and
    [last] only; their five functors are embedded.  A value of the Go
    interface type is an [option Value], [None] being nil. *)

Module Functor.

Inductive Functor :=
| First (alreadySet : bool) (first : option Value)
| Last (last : option Value)
| Counter (Count : Z)
| Averager (theType : FieldType) (Count : Z) (Sum : float64)
| Summer (TheType : FieldType) (Sum : float64).

Definition Reset (f : Functor) : Functor :=
  match f with
  | First _ first => First false first
  | Last last => Last last
  | Counter _ => Counter 0
  | Averager theType _ _ => Averager theType 0 PrimFloat.zero
  | Summer TheType _ => Summer TheType PrimFloat.zero
  end.

(** The zero value of the structure followed by [Init]. *)
Definition InitFirst : Functor := Reset (First false None).
Definition InitLast : Functor := Reset (Last None).
Definition InitCounter : Functor := Reset (Counter 0).
Definition InitAverager (typ : FieldType) : Functor := Reset (Averager typ 0 PrimFloat.zero).
Definition InitSummer (typ : FieldType) : Functor := Reset (Summer typ PrimFloat.zero).

(** The addend of [Averager.Update] and [Summer.Update]: the switch on the
    type of the field and the type assertion on the value. *)
Definition addend (theType : FieldType) (value : Value) : result float64 :=
  match theType with
  | FieldType_float64 =>
      match value with
      | VFloat x => Ok x
      | _ => Panic "interface conversion: interface {} is not float64"
      end
  | FieldType_integer64 =>
      match value with
      | VInt i => Ok (float64_of_int64 i)
      | _ => Panic "interface conversion: interface {} is not int64"
      end
  | _ => Panic "unknown type"
  end.

Definition Update (f : Functor) (value : Value) : result Functor :=
  match f with
  | First alreadySet first =>
      if alreadySet then Ok (First alreadySet first) else Ok (First true (Some value))
  | Last _ => Ok (Last (Some value))
  | Counter Count => Ok (Counter (wrap64 (Count + 1)))
  | Averager theType Count Sum =>
      x ← addend theType value;
      Ok (Averager theType (wrap64 (Count + 1)) (PrimFloat.add Sum x))
  | Summer TheType Sum =>
      x ← addend TheType value;
      Ok (Summer TheType (PrimFloat.add Sum x))
  end.

Definition Value_ (f : Functor) : option Value :=
  match f with
  | First _ first => first
  | Last last => last
  | Counter Count => Some (VFloat (float64_of_int64 Count))
  | Averager _ Count Sum => Some (VFloat (PrimFloat.div Sum (float64_of_int64 Count)))
  | Summer _ Sum => Some (VFloat Sum)
  end.

End Functor.

(** ** Package operator *)

Module Operator.

Import Functor.

Record Operator := {
  OutputFieldNames : list string;
  OutputFieldTypes : list FieldType;
  GroupFieldNames : list string;
  GroupFieldTypes : list FieldType
}.

Definition Operator_Init (node : Node) : Operator :=
  {| OutputFieldNames := List.map Field_Name (Node_Fields node);
     OutputFieldTypes := List.map Field_Type (Node_Fields node);
     GroupFieldNames := List.map Field_Name (Node_GroupFields node);
     GroupFieldTypes := List.map Field_Type (Node_GroupFields node) |}.

(** *** Calls by reflection *)

(** [InvokeWithoutParameters]: the call of a getter; the first result. *)
Definition InvokeWithoutParameters (any : gmap string Value) (methodName : string) : result Value :=
  upperCaseMethodName ← Utility.UpcaseFirstLetter methodName;
  match any !! upperCaseMethodName with
  | Some v => Ok v
  | None => Panic "reflect: call of reflect.Value.Call on zero Value"
  end.

(** [InvokeWithParameters] on the setter ["Set" + field]: the argument
    must have the type of the field. *)
Definition InvokeWithParameters (any : gmap string Value) (methodName : string) (arg : Value)
    : result (gmap string Value) :=
  match methodName with
  | String "S" (String "e" (String "t" field)) =>
      match any !! field with
      | Some old =>
          if decide (typeOf old = typeOf arg) then Ok (<[field := arg]> any)
          else Panic "reflect: Call using a value of another type"
      | None => Panic "reflect: call of reflect.Value.Call on zero Value"
      end
  | _ => Panic "reflect: call of reflect.Value.Call on zero Value"
  end.

Definition setter (name : string) : result string :=
  upper ← Utility.UpcaseFirstLetter name;
  Ok ("Set" +:+ upper).

Definition typeName (t : FieldType) : string :=
  match t with
  | FieldType_boolean => "bool"
  | FieldType_float64 => "float64"
  | FieldType_integer64 => "int64"
  | FieldType_text => "string"
  end.

(** [typeCast]: the accessors [Bool], [Float] and [Int] of a reflected
    value panic on a value of another kind; [String] does not. *)
Definition typeCast (value : Value) (t : FieldType) : result Value :=
  match t, value with
  | FieldType_boolean, VBool _ => Ok value
  | FieldType_float64, VFloat _ => Ok value
  | FieldType_integer64, VInt _ => Ok value
  | FieldType_text, VText _ => Ok value
  | FieldType_text, _ => Ok (VText ("<" +:+ typeName (typeOf value) +:+ " Value>"))
  | _, _ => Panic "reflect: call of an accessor on a value of another kind"
  end.

Definition stringToType (value : string) (t : FieldType) : result Value :=
  match t with
  | FieldType_text => Ok (VText value)
  | FieldType_boolean => b ← orPanic (Strconv.ParseBool value); Ok (VBool b)
  | FieldType_float64 => f ← orPanic (Strconv.ParseFloat value); Ok (VFloat f)
  | FieldType_integer64 => i ← orPanic (Strconv.ParseInt value); Ok (VInt i)
  end.

(** *** Window *)

Record Window := {
  Window_Operator : Operator;
  WindowType : string;
  IntervalField : string;
  IntervalType : string;
  IntervalUnit : string;
  IntervalAmount : string;
  SequenceField : string;
  IntervalRows : Z;
  TickerSeconds : float64;
  SessionIncludeClosingRow : bool
}.

(** [properties.At(i).Value()] *)
Definition propertyAt (properties : list OperatorProperty) (i : nat) : result string :=
  match properties !! i with
  | Some p => Ok (Property_Value p)
  | None => Panic "capnp: list index out of range"
  end.

Definition Window_Init (node : Node) : result Window :=
  let properties := Node_Properties node in
  windowType ← propertyAt properties 0;
  intervalType ← propertyAt properties 1;
  intervalAmount ← propertyAt properties 2;
  intervalUnit ← propertyAt properties 3;
  intervalField ← propertyAt properties 4;
  inclusiveText ← propertyAt properties 5;
  inclusive ← orPanic (Strconv.ParseBool inclusiveText);
  sequenceField ← propertyAt properties 6;
  '(rows, seconds) ←
    (if String.eqb intervalType Compiler.IntervalTypeTime then
       s ← orPanic (Strconv.ParseFloat intervalAmount); Ok (0, s)
     else if String.eqb intervalType Compiler.IntervalTypeDistance then
       r ← orPanic (Strconv.ParseInt intervalAmount); Ok (r, PrimFloat.zero)
     else if String.eqb intervalType "N/A" then Ok (0, PrimFloat.zero)
     else Panic ("illegal interval type: " +:+ intervalType));
  Ok {| Window_Operator := Operator_Init node;
        WindowType := windowType; IntervalField := intervalField;
        IntervalType := intervalType; IntervalUnit := intervalUnit;
        IntervalAmount := intervalAmount; SequenceField := sequenceField;
        IntervalRows := rows; TickerSeconds := seconds;
        SessionIncludeClosingRow := inclusive |}.

(** *** Ingress *)

(** One turn of the loop of [Ingress.Ingress] over the record. *)
Definition ingressField (o : Operator) (st : gmap string Value * gmap string Value)
    (cell : nat * string) : result (gmap string Value * gmap string Value) :=
  let '(payload, group) := st in
  let '(i, text) := cell in
  typ ← from_option Ok (Panic "runtime error: index out of range") (OutputFieldTypes o !! i);
  theType ← stringToType text typ;
  name ← from_option Ok (Panic "runtime error: index out of range") (OutputFieldNames o !! i);
  set ← setter name;
  payload ← InvokeWithParameters payload set theType;
  if bool_decide (name ∈ GroupFieldNames o) then
    group ← InvokeWithParameters group set theType;
    Ok (payload, group)
  else Ok (payload, group).

Definition Ingress (o : Operator) (schemas : Schemas) (record : list string) : result Row :=
  let payload := newStruct (IngressPayload_Fields schemas) in
  let group := newStruct (Group_Fields schemas) in
  '(payload, group) ← foldM (ingressField o) (imap (λ i text, (i, text)) record) (payload, group);
  Ok {| Row_Group := group; Row_Payload := payload |}.

(** *** Aggregate *)

Record Aggregate := {
  Aggregate_Operator : Operator;
  inputNames : list string;
  inputTypes : list FieldType;
  functors : list Functor
}.

(** The functor for the name of a function.  [Init] also knows
    [distinctcount], [maximum], [minimum], [group] and [unique], which no
    compiled plan contains; they are outside this development and are
    grouped here with the names that [Init] rejects. *)
Definition newFunctor (name : string) (inputType : FieldType) : result Functor :=
  if String.eqb name "average" then Ok (InitAverager inputType)
  else if String.eqb name "count" then Ok InitCounter
  else if String.eqb name "sum" then Ok (InitSummer inputType)
  else if String.eqb name "first" then Ok InitFirst
  else if String.eqb name "last" then Ok InitLast
  else Panic ("unknown function name: " +:+ name).

Definition aggregateCall (o : Aggregate) (call : Call) : result Aggregate :=
  let name := Function_Name (Call_Function call) in
  field ← from_option Ok (Panic "capnp: list index out of range") (Call_InputFields call !! 0%nat);
  f ← newFunctor name (Field_Type field);
  Ok {| Aggregate_Operator := Aggregate_Operator o;
        inputNames := inputNames o ++ [Field_Name field];
        inputTypes := inputTypes o ++ [Field_Type field];
        functors := functors o ++ [f] |}.

Definition Aggregate_Init (node : Node) : result Aggregate :=
  foldM aggregateCall (Node_Calls node)
    {| Aggregate_Operator := Operator_Init node; inputNames := []; inputTypes := [];
       functors := [] |}.

Definition setFunctors (fs : list Functor) (o : Aggregate) : Aggregate :=
  {| Aggregate_Operator := Aggregate_Operator o; inputNames := inputNames o;
     inputTypes := inputTypes o; functors := fs |}.

Definition Aggregate_Reset (o : Aggregate) : Aggregate :=
  setFunctors (List.map Reset (functors o)) o.

(** One turn of the loop of [Aggregate.Update]. *)
Definition updateAt (payload : gmap string Value) (o : Aggregate) (i : nat) : result Aggregate :=
  inputName ← from_option Ok (Panic "runtime error: index out of range") (inputNames o !! i);
  getMethodName ← Utility.UpcaseFirstLetter inputName;
  v ← InvokeWithoutParameters payload getMethodName;
  typ ← from_option Ok (Panic "runtime error: index out of range") (inputTypes o !! i);
  value ← typeCast v typ;
  f ← from_option Ok (Panic "runtime error: index out of range") (functors o !! i);
  f ← Update f value;
  Ok (setFunctors (<[i := f]> (functors o)) o).

Definition Aggregate_Update (o : Aggregate) (inRow : Row) : result Aggregate :=
  foldM (updateAt (Row_Payload inRow)) (seq 0 (length (inputNames o))) o.

(** The conversion of the value of a functor to the type of the output
    field: the value is printed and the text is parsed. *)
Definition convert (value : option Value) (outputType : FieldType) : result Value :=
  let text := Fmt.Sprint value in
  match outputType with
  | FieldType_boolean => v ← orPanic (Strconv.ParseBool text); Ok (VBool v)
  | FieldType_float64 => f ← orPanic (Strconv.ParseFloat text); Ok (VFloat f)
  | FieldType_integer64 => i ← orPanic (Strconv.ParseInt text); Ok (VInt i)
  | FieldType_text => Ok (VText text)
  end.

(** One turn of the loop of [Aggregate.Value]. *)
Definition valueAt (o : Aggregate) (payload : gmap string Value) (i : nat)
    : result (gmap string Value) :=
  outputName ← from_option Ok (Panic "runtime error: index out of range")
                 (OutputFieldNames (Aggregate_Operator o) !! i);
  outputType ← from_option Ok (Panic "runtime error: index out of range")
                 (OutputFieldTypes (Aggregate_Operator o) !! i);
  f ← from_option Ok (Panic "runtime error: index out of range") (functors o !! i);
  v ← convert (Value_ f) outputType;
  set ← setter outputName;
  InvokeWithParameters payload set v.

(** [Aggregate.Value]: the payload of the aggregate row. *)
Definition Aggregate_Value (o : Aggregate) (schemas : Schemas) : result (gmap string Value) :=
  foldM (valueAt o) (seq 0 (length (OutputFieldNames (Aggregate_Operator o))))
    (newStruct (AggregatePayload_Fields schemas)).

(** *** Project *)

Definition projectAt (o : Operator) (inPayload outPayload : gmap string Value) (i : nat)
    : result (gmap string Value) :=
  name ← from_option Ok (Panic "runtime error: index out of range") (OutputFieldNames o !! i);
  value ← InvokeWithoutParameters inPayload name;
  set ← setter name;
  typ ← from_option Ok (Panic "runtime error: index out of range") (OutputFieldTypes o !! i);
  arg ← typeCast value typ;
  InvokeWithParameters outPayload set arg.

Definition Project (o : Operator) (schemas : Schemas) (inRow : Row) : result Row :=
  outPayload ← foldM (projectAt o (Row_Payload inRow)) (seq 0 (length (OutputFieldNames o)))
                 (newStruct (EgressPayload_Fields schemas));
  Ok {| Row_Group := Row_Group inRow; Row_Payload := outPayload |}.

(** *** Time stamp of a row *)

Definition Timestamp (ingressRow : Row) (timeFieldName : string) : result Z :=
  getMethodName ← Utility.UpcaseFirstLetter timeFieldName;
  v ← InvokeWithoutParameters (Row_Payload ingressRow) getMethodName;
  orPanic (GoTime.Parse (Fmt.Sprint (Some v))).

End Operator.

(** ** Package functions: the code generated for the filters

    [GoEval] writes a function whose body is [pass = condition], where the
    condition is the Go expression that the compiler assembled.  The
    expression is embedded as the tree that the Go parser builds from it,
    [render] giving back its text, and evaluated by the rules of Go. *)

Module Functions.

Inductive arithOp := OpMul | OpDiv | OpMod | OpAdd | OpSub.

Global Instance arithOp_eq_dec : EqDecision arithOp.
Proof. solve_decision. Defined.

Inductive GoExpr :=
| EField (name : string)
| EInt (text : string)
| EFloat (text : string)
| EString (text : string)
| EArith (op : arithOp) (x y : GoExpr)
| ECmp (op : cmpToken) (x y : GoExpr)
| ECompare (x y : GoExpr)
| ENot (x : GoExpr)
| EAnd (x y : GoExpr)
| EOr (x y : GoExpr)
| EParen (x : GoExpr).

Definition arithText (op : arithOp) : string :=
  match op with
  | OpMul => " * " | OpDiv => " / " | OpMod => " % " | OpAdd => " + " | OpSub => " - "
  end.

(** The source text of an expression, as the compiler spells it. *)
Fixpoint render (e : GoExpr) : string :=
  match e with
  | EField name => GoCodeVariablePrefix +:+ "." +:+ name
  | EInt text => text
  | EFloat text => text
  | EString text => text
  | EArith op x y => render x +:+ arithText op +:+ render y
  | ECmp op x y => Compiler.defaultCompare op (render x) (render y)
  | ECompare x y => render x +:+ ".Compare(" +:+ render y +:+ ")"
  | ENot x => "!(" +:+ render x +:+ ")"
  | EAnd x y => render x +:+ " && " +:+ render y
  | EOr x y => render x +:+ " || " +:+ render y
  | EParen x => "(" +:+ render x +:+ ")"
  end.

(** Precedence of the operator at the root: 5 for [* / %], 4 for [+ -],
    3 for comparisons, 2 for [&&], 1 for [||], 6 for the rest. *)
Definition prec (e : GoExpr) : Z :=
  match e with
  | EArith (OpMul | OpDiv | OpMod) _ _ => 5
  | EArith _ _ _ => 4
  | ECmp _ _ _ => 3
  | EAnd _ _ => 2
  | EOr _ _ => 1
  | _ => 6
  end.

(** Whether the tree is the one that the Go parser builds from the text
    of [render]: binary operators associate to the left and bind by
    precedence. *)
Fixpoint parsed (e : GoExpr) : bool :=
  match e with
  | EArith _ x y | ECmp _ x y | EAnd x y | EOr x y =>
      (prec e <=? prec x) && (prec e <? prec y) && parsed x && parsed y
  | ECompare x y => (prec x =? 6) && parsed x && parsed y
  | ENot x | EParen x => parsed x
  | _ => true
  end.

(** *** Values of Go expressions

    The fields of the internal payload are typed; a literal is an untyped
    constant with an exact value. *)

Inductive GoValue :=
| GBool (b : bool)
| GFloat (f : float64)
| GInt (i : Z)
| GString (s : string)
| GTime (t : Z)
| CInt (i : Z)
| CFloat (q : Q).

(** Nearest binary64 to the rational [n / d] with [d > 0]. *)
Definition roundRatio (n d : Z) : float64 :=
  let neg := n <? 0 in
  let a := Z.abs n in
  let s := Z.log2 d + 66 in
  let q := (a * 2 ^ s) / d in
  let r := (a * 2 ^ s) mod d in
  let m := 2 * q + (if r =? 0 then 0 else 1) in
  SF2Prim (binary_normalize FloatOps.prec emax (if neg then - m else m) (- s - 1) false).

Definition float64_of_Q (q : Q) : float64 := roundRatio (Qnum q) (Z.pos (Qden q)).

(** A build error: the Go compiler rejects the generated function. *)
Definition buildError {A} (msg : string) : result A := Err msg.

(** The conversion of an untyped constant to [int64] and to [float64]. *)
Definition constToInt (v : GoValue) : result Z :=
  match v with
  | CInt i => if in_int64 i then Ok i else buildError "constant overflows int64"
  | CFloat q =>
      if (Z.pos (Qden (Qred q)) =? 1) && in_int64 (Qnum (Qred q)) then Ok (Qnum (Qred q))
      else buildError "constant truncated to integer"
  | _ => buildError "mismatched types"
  end.

Definition constToFloat (v : GoValue) : result float64 :=
  match v with
  | CInt i => Ok (float64_of_int64 i)
  | CFloat q => Ok (float64_of_Q q)
  | _ => buildError "mismatched types"
  end.

Definition constToQ (v : GoValue) : option Q :=
  match v with
  | CInt i => Some (inject_Z i)
  | CFloat q => Some q
  | _ => None
  end.

(** An operation that panics still has a static type; its outcome is a
    value of that type and the message of the panic.  An [Err] is a build
    error. *)
Definition Ev : Type := GoValue * option string.

Definition pure (v : GoValue) : result Ev := Ok (v, None).

(** Arithmetic on [int64]: the quotient truncates towards zero, and a zero
    divisor panics. *)
Definition arithInt (op : arithOp) (a b : Z) : result Ev :=
  match op with
  | OpMul => pure (GInt (wrap64 (a * b)))
  | OpAdd => pure (GInt (wrap64 (a + b)))
  | OpSub => pure (GInt (wrap64 (a - b)))
  | OpDiv => if b =? 0 then Ok (GInt 0, Some "runtime error: integer divide by zero")
             else pure (GInt (wrap64 (Z.quot a b)))
  | OpMod => if b =? 0 then Ok (GInt 0, Some "runtime error: integer divide by zero")
             else pure (GInt (wrap64 (Z.rem a b)))
  end.

(** Arithmetic on [float64]: IEEE 754; there is no remainder. *)
Definition arithFloat (op : arithOp) (a b : float64) : result Ev :=
  match op with
  | OpMul => pure (GFloat (PrimFloat.mul a b))
  | OpAdd => pure (GFloat (PrimFloat.add a b))
  | OpSub => pure (GFloat (PrimFloat.sub a b))
  | OpDiv => pure (GFloat (PrimFloat.div a b))
  | OpMod => buildError "operator % not defined on float64"
  end.

(** Arithmetic on two untyped constants: exact; a constant divisor must
    not be zero. *)
Definition arithConst (op : arithOp) (a b : GoValue) : result Ev :=
  match a, b with
  | CInt x, CInt y =>
      match op with
      | OpMul => pure (CInt (x * y))
      | OpAdd => pure (CInt (x + y))
      | OpSub => pure (CInt (x - y))
      | OpDiv => if y =? 0 then buildError "division by zero" else pure (CInt (Z.quot x y))
      | OpMod => if y =? 0 then buildError "division by zero" else pure (CInt (Z.rem x y))
      end
  | _, _ =>
      match constToQ a, constToQ b with
      | Some x, Some y =>
          match op with
          | OpMul => pure (CFloat (Qred (x * y)))
          | OpAdd => pure (CFloat (Qred (x + y)))
          | OpSub => pure (CFloat (Qred (x - y)))
          | OpDiv => if Qeq_bool y 0 then buildError "division by zero"
                     else pure (CFloat (Qred (x / y)))
          | OpMod => buildError "operator % not defined on untyped float"
          end
      | _, _ => buildError "mismatched types"
      end
  end.

Definition isConst (v : GoValue) : bool :=
  match v with
  | CInt _ | CFloat _ => true
  | _ => false
  end.

Definition isZeroConst (v : GoValue) : bool :=
  match constToQ v with
  | Some q => Qeq_bool q 0
  | None => false
  end.

(** A binary arithmetic operation.  An untyped constant takes the type of
    the other operand; a constant zero must not divide an integer. *)
Definition arith (op : arithOp) (a b : GoValue) : result Ev :=
  match a, b with
  | (CInt _ | CFloat _), (CInt _ | CFloat _) => arithConst op a b
  | GInt x, GInt y => arithInt op x y
  | GInt x, (CInt _ | CFloat _) =>
      if isZeroConst b && bool_decide (op ∈ [OpDiv; OpMod]) then buildError "division by zero"
      else y ← constToInt b; arithInt op x y
  | (CInt _ | CFloat _), GInt y => x ← constToInt a; arithInt op x y
  | GFloat x, GFloat y => arithFloat op x y
  | GFloat x, (CInt _ | CFloat _) => y ← constToFloat b; arithFloat op x y
  | (CInt _ | CFloat _), GFloat y => x ← constToFloat a; arithFloat op x y
  | GString x, GString y =>
      match op with
      | OpAdd => pure (GString (x +:+ y))
      | _ => buildError "operator not defined on string"
      end
  | _, _ => buildError "mismatched types"
  end.

Definition cmpResult (op : cmpToken) (lt eq : bool) : bool :=
  match op with
  | UQLParserLT => lt
  | UQLParserLT_EQ => lt || eq
  | UQLParserEQ => eq
  | UQLParserNOT_EQ => negb eq
  | UQLParserGT_EQ => negb lt
  | UQLParserGT => negb lt && negb eq
  end.

Definition cmpFloat (op : cmpToken) (x y : float64) : bool :=
  match op with
  | UQLParserLT => PrimFloat.ltb x y
  | UQLParserLT_EQ => PrimFloat.leb x y
  | UQLParserEQ => PrimFloat.eqb x y
  | UQLParserNOT_EQ => negb (PrimFloat.eqb x y)
  | UQLParserGT_EQ => PrimFloat.leb y x
  | UQLParserGT => PrimFloat.ltb y x
  end.

Definition compare (op : cmpToken) (a b : GoValue) : result Ev :=
  match a, b with
  | GInt x, GInt y => pure (GBool (cmpResult op (x <? y) (x =? y)))
  | GInt x, (CInt _ | CFloat _) => y ← constToInt b; pure (GBool (cmpResult op (x <? y) (x =? y)))
  | (CInt _ | CFloat _), GInt y => x ← constToInt a; pure (GBool (cmpResult op (x <? y) (x =? y)))
  | GFloat x, GFloat y => pure (GBool (cmpFloat op x y))
  | GFloat x, (CInt _ | CFloat _) => y ← constToFloat b; pure (GBool (cmpFloat op x y))
  | (CInt _ | CFloat _), GFloat y => x ← constToFloat a; pure (GBool (cmpFloat op x y))
  | GString x, GString y => pure (GBool (cmpResult op (String.ltb x y) (String.eqb x y)))
  | GBool x, GBool y =>
      match op with
      | UQLParserEQ => pure (GBool (Bool.eqb x y))
      | UQLParserNOT_EQ => pure (GBool (negb (Bool.eqb x y)))
      | _ => buildError "operator not defined on bool"
      end
  | GTime x, GTime y =>
      match op with
      | UQLParserEQ => pure (GBool (x =? y))
      | UQLParserNOT_EQ => pure (GBool (negb (x =? y)))
      | _ => buildError "operator not defined on struct"
      end
  | (CInt _ | CFloat _), (CInt _ | CFloat _) =>
      match constToQ a, constToQ b with
      | Some x, Some y => pure (GBool (cmpResult op (negb (Qle_bool y x)) (Qeq_bool x y)))
      | _, _ => buildError "mismatched types"
      end
  | _, _ => buildError "mismatched types"
  end.

(** *** Literals *)

Fixpoint readOctal (s : string) (acc : Z) : option Z :=
  match s with
  | EmptyString => Some acc
  | String c s' =>
      let d := Strconv.digitVal c in
      if (0 <=? d) && (d <=? 7) then readOctal s' (8 * acc + d) else None
  end.

(** An integer literal: decimal, or octal after a leading zero; a minus
    sign in front is the negation of the constant. *)
Definition intLiteral (text : string) : result Ev :=
  let '(neg, digits) := Strconv.readSign text in
  let sign := if neg then -1 else 1 in
  match digits with
  | String "0" (String c rest) =>
      match readOctal (String c rest) 0 with
      | Some v => pure (CInt (sign * v))
      | None => buildError "invalid digit in octal literal"
      end
  | _ =>
      let '(v, n, rest) := Strconv.readDigits digits 0 0 in
      if (0 <? n) && String.eqb rest "" then pure (CInt (sign * v))
      else buildError "invalid integer literal"
  end.

(** A floating-point literal [digits[.digits][e[-]digits]]: its exact value. *)
Definition floatLiteral (text : string) : result Ev :=
  let '(neg, s1) := Strconv.readSign text in
  let '(ip, ni, s2) := Strconv.readDigits s1 0 0 in
  let '(fp, nf, s3) :=
    match s2 with
    | String "." s2' => Strconv.readDigits s2' ip 0
    | _ => (ip, 0, s2)
    end in
  let ex : option Z :=
    match s3 with
    | EmptyString => Some 0
    | String "e" s3' =>
        let '(eneg, s4) := Strconv.readSign s3' in
        let '(ev, ne, s5) := Strconv.readDigits s4 0 0 in
        if (0 <? ne) && String.eqb s5 "" then Some (if eneg then - ev else ev) else None
    | _ => None
    end in
  match ex with
  | Some ev =>
      if 0 <? ni then
        pure (CFloat (Qred (inject_Z ((if neg then -1 else 1) * fp) * inject_Z 10 ^ (ev - nf))))
      else buildError "invalid floating-point literal"
  | None => buildError "invalid floating-point literal"
  end.

(** The bytes of a string literal between its quotes; a backslash keeps
    the byte after it. *)
Fixpoint unescape (s : string) : string :=
  match s with
  | EmptyString => ""
  | String c rest =>
      if Ascii.eqb c (ascii_of_N 92) then
        match rest with
        | String c' rest' => String c' (unescape rest')
        | EmptyString => ""
        end
      else if Ascii.eqb c (ascii_of_N 34) then ""
      else String c (unescape rest)
  end.

Definition stringLiteral (text : string) : result Ev :=
  match text with
  | String q body =>
      if Ascii.eqb q (ascii_of_N 34) then pure (GString (unescape body))
      else buildError "invalid string literal"
  | EmptyString => buildError "invalid string literal"
  end.

(** *** Evaluation *)

(** The panic of the operand that is evaluated first. *)
Definition firstPanic (a b : option string) : option string :=
  match a with
  | Some m => Some m
  | None => b
  end.

Definition binary (f : GoValue → GoValue → result Ev) (rx ry : result Ev) : result Ev :=
  '(x, px) ← rx;
  '(y, py) ← ry;
  '(v, pv) ← f x y;
  Ok (v, firstPanic px (firstPanic py pv)).

Definition compareTimes (x y : GoValue) : result Ev :=
  match x, y with
  | GTime t, GTime u => pure (GInt (if t <? u then -1 else if t =? u then 0 else 1))
  | _, _ => buildError "Compare undefined"
  end.

(** [&&] and [||]: the right operand is evaluated only when the left one
    does not decide, so its panic counts only then; [stop] is the value of
    the left operand that decides. *)
Definition shortCircuit (stop : bool) (rx ry : result Ev) : result Ev :=
  '(x, px) ← rx;
  '(y, py) ← ry;
  match x, y with
  | GBool a, GBool b =>
      if Bool.eqb a stop then Ok (GBool stop, px) else Ok (GBool b, firstPanic px py)
  | _, _ => buildError "operator not defined on operand"
  end.

Fixpoint eval (p : gmap string GoValue) (e : GoExpr) : result Ev :=
  match e with
  | EField name =>
      match p !! name with
      | Some v => pure v
      | None => buildError ("p." +:+ name +:+ " undefined")
      end
  | EInt text => intLiteral text
  | EFloat text => floatLiteral text
  | EString text => stringLiteral text
  | EArith op x y => binary (arith op) (eval p x) (eval p y)
  | ECmp op x y => binary (compare op) (eval p x) (eval p y)
  | ECompare x y => binary compareTimes (eval p x) (eval p y)
  | ENot x =>
      '(v, pv) ← eval p x;
      match v with
      | GBool b => Ok (GBool (negb b), pv)
      | _ => buildError "operator ! not defined on operand"
      end
  | EAnd x y => shortCircuit false (eval p x) (eval p y)
  | EOr x y => shortCircuit true (eval p x) (eval p y)
  | EParen x => eval p x
  end.

(** The body [pass = condition] of a generated function. *)
Definition evalCondition (condition : GoExpr) (p : gmap string GoValue) : result bool :=
  '(v, pv) ← eval p condition;
  match v, pv with
  | GBool _, Some m => Panic m
  | GBool b, None => Ok b
  | _, _ => buildError "cannot use the condition as bool value"
  end.

(** *** The generated functions *)

(** One assignment of [TranslatePayload] ([GoFieldMapping]): a text field
    of usage [time] is parsed, any other field is copied. *)
Definition translateField (in_ : gmap string Value) (out : gmap string GoValue) (field : Field)
    : result (gmap string GoValue) :=
  let name := Field_Name field in
  match in_ !! exportName name with
  | None => buildError ("in." +:+ exportName name +:+ " undefined")
  | Some (VBool b) => Ok (<[name := GBool b]> out)
  | Some (VFloat f) => Ok (<[name := GFloat f]> out)
  | Some (VInt i) => Ok (<[name := GInt i]> out)
  | Some (VText s) =>
      if decide (Field_Usage field = FieldUsage_time) then
        t ← orPanic (GoTime.Parse s); Ok (<[name := GTime t]> out)
      else Ok (<[name := GString s]> out)
  end.

Definition TranslatePayload (fields : list Field) (in_ : gmap string Value)
    : result (gmap string GoValue) :=
  foldM (translateField in_) fields ∅.

(** A generated filter: the fields of the node whose payload it reads
    and the condition, [None] where [GoPassthroughEvalFunction] wrote
    a function that returns true. *)
Definition evalFilter (fields : list Field) (condition : option GoExpr) (row : Row) : result bool :=
  internalPayload ← TranslatePayload fields (Row_Payload row);
  match condition with
  | None => Ok true
  | Some c => evalCondition c internalPayload
  end.

(** The type [Filter] of the generated package, with the data that the
    generator took from the plan and the conditions. *)
Record Filter := {
  IngressFields : list Field;
  AggregateFields : list Field;
  EgressFields : list Field;
  IngressCondition : option GoExpr;
  SessionOpenCondition : option GoExpr;
  SessionCloseCondition : option GoExpr;
  AggregateCondition : option GoExpr;
  ProjectCondition : option GoExpr
}.

Definition EvalIngressFilter (f : Filter) : Row → result bool :=
  evalFilter (IngressFields f) (IngressCondition f).
Definition EvalSessionOpenFilter (f : Filter) : Row → result bool :=
  evalFilter (IngressFields f) (SessionOpenCondition f).
Definition EvalSessionCloseFilter (f : Filter) : Row → result bool :=
  evalFilter (IngressFields f) (SessionCloseCondition f).
Definition EvalAggregateFilter (f : Filter) : Row → result bool :=
  evalFilter (AggregateFields f) (AggregateCondition f).
Definition EvalProjectFilter (f : Filter) : Row → result bool :=
  evalFilter (EgressFields f) (ProjectCondition f).

End Functions.

(** ** Package engine

    Every operator runs in a goroutine of its own that reads one channel
    and writes one channel.  A worker is embedded as a step function: from
    its state and the value that it receives to the values that it sends
    during the step and its next state, or the panic that ends the
    process. *)

Module Engine.

Import Operator Functions.

(** The values sent during a step, and the state after it. *)
Definition Step (S O : Type) : Type := list O * result S.

Definition stay {S O} (s : S) : Step S O := ([], Ok s).
Definition send {S O} (out : list O) (s : S) : Step S O := (out, Ok s).
Definition crash {S O} (out : list O) (msg : string) : Step S O := (out, Panic msg).

(** A computation that sends nothing, then the rest of the step. *)
Definition andThen {A S O} (r : result A) (k : A → Step S O) : Step S O :=
  match r with
  | Ok a => k a
  | Err msg => ([], Panic msg)
  | Panic msg => ([], Panic msg)
  end.

(** The same after the values [out] have been sent. *)
Definition after {S O} (out : list O) (st : Step S O) : Step S O :=
  (out ++ st.1, st.2).

(** A worker that has received the values [inputs] and waits for the
    next one: all that it has sent, and its state.  After a panic nothing
    more is received. *)
Fixpoint runWorker {S I O} (step : S → I → Step S O) (s : S) (inputs : list I) : Step S O :=
  match inputs with
  | [] => stay s
  | i :: rest =>
      match step s i with
      | (out, Ok s') => after out (runWorker step s' rest)
      | (out, r) => (out, r)
      end
  end.

Record Engine := {
  schemas : Schemas;
  filter : Filter;
  ingress : Operator;
  window : Window;
  aggregate : Aggregate;
  project : Operator;
  egress : Operator
}.

(** The window operator [e.window], where a variable of the worker is
    called [window] too. *)
Definition windowOp (e : Engine) : Window := window e.

Definition findOperator (plan : Plan) (typ : OperatorType) : result Node :=
  match FindFirstNodeByType plan typ with
  | Some node => Ok node
  | None => Panic "could not find node for operator"
  end.

(** [NewEngine] on a plan that has been read, with the generated
    packages [data] and [functions] that the engine is linked with. *)
Definition NewEngine (plan : Plan) (schemas : Schemas) (filter : Filter) : result Engine :=
  node ← findOperator plan OperatorType_window;
  window ← Window_Init node;
  node ← findOperator plan OperatorType_egress;
  let egress := Operator_Init node in
  node ← findOperator plan OperatorType_ingress;
  let ingress := Operator_Init node in
  node ← findOperator plan OperatorType_aggregate;
  aggregate ← Aggregate_Init node;
  node ← findOperator plan OperatorType_project;
  let project := Operator_Init node in
  _ ← findOperator plan OperatorType_ingressFilter;
  _ ← findOperator plan OperatorType_aggregateFilter;
  _ ← findOperator plan OperatorType_projectFilter;
  Ok {| schemas := schemas; filter := filter; ingress := ingress; window := window;
        aggregate := aggregate; project := project; egress := egress |}.

(** *** Ingress and the filters *)

(** [IngressWorker]: one record of the CSV reader becomes one row. *)
Definition IngressWorker (e : Engine) (_ : unit) (record : list string) : Step unit Row :=
  andThen (Operator.Ingress (ingress e) (schemas e) record) (λ row, send [row] tt).

(** The loop of a filter worker around the function [eval]. *)
Definition filterWorker (eval : Row → result bool) (_ : unit) (row : Row) : Step unit Row :=
  andThen (eval row) (λ pass, if pass then send [row] tt else stay tt).

Definition IngressFilterWorker (e : Engine) : unit → Row → Step unit Row :=
  filterWorker (EvalIngressFilter (filter e)).

Definition AggregateFilterWorker (e : Engine) : unit → Row → Step unit Row :=
  filterWorker (EvalAggregateFilter (filter e)).

Definition ProjectFilterWorker (e : Engine) : unit → Row → Step unit Row :=
  filterWorker (EvalProjectFilter (filter e)).

(** *** Windows per group *)

Record WindowGroup := {
  groupFieldNames : list string;
  windows : gmap string (list Row)
}.

Definition CreateWindowGroup (groupFieldNames : list string) : WindowGroup :=
  {| groupFieldNames := groupFieldNames; windows := ∅ |}.

Definition IsOpen (wg : WindowGroup) (groupKey : string) : bool :=
  bool_decide (is_Some (windows wg !! groupKey)).

(** [GroupKey]: the printed values of the group fields, one after the other. *)
Definition GroupKey (wg : WindowGroup) (ingressRow : Row) : result string :=
  foldM (λ key name,
           getMethodName ← Utility.UpcaseFirstLetter name;
           value ← InvokeWithoutParameters (Row_Group ingressRow) getMethodName;
           Ok (key +:+ Fmt.Sprint (Some value)))
        (groupFieldNames wg) "".

Definition Append (wg : WindowGroup) (ingressRow : Row) : result WindowGroup :=
  groupKey ← GroupKey wg ingressRow;
  let window :=
    match windows wg !! groupKey with
    | None => [ingressRow]
    | Some window => window ++ [ingressRow]
    end in
  Ok {| groupFieldNames := groupFieldNames wg; windows := <[groupKey := window]> (windows wg) |}.

Definition Close (wg : WindowGroup) (groupKey : string) : option (list Row) * WindowGroup :=
  match windows wg !! groupKey with
  | None => (None, wg)
  | Some window =>
      (Some window,
       {| groupFieldNames := groupFieldNames wg; windows := delete groupKey (windows wg) |})
  end.

(** [AllGroupKeys]; Go visits the keys of a map in an order that it does
    not specify, the order here is that of the finite map. *)
Definition AllGroupKeys (wg : WindowGroup) : list string :=
  (map_to_list (windows wg)).*1.

(** The loop that closes the windows of all keys and sends them. *)
Fixpoint closeAll (keys : list string) (wg : WindowGroup) : list (list Row) * WindowGroup :=
  match keys with
  | [] => ([], wg)
  | key :: rest =>
      let '(w, wg) := Close wg key in
      let '(out, wg) := closeAll rest wg in
      (match w with Some window => window :: out | None => out end, wg)
  end.

(** *** Session windows *)

(** The end of a turn of the loop: the row opens a window if the begin
    condition holds. *)
Definition sessionOpen (e : Engine) (window : list Row) (ingressRow : Row)
    : Step (list Row) (list Row) :=
  andThen (EvalSessionOpenFilter (filter e) ingressRow)
    (λ opens, if opens then stay [ingressRow] else stay window).

(** [SessionWindowWorker] without group fields; the state is the variable
    [window]. *)
Definition SessionWindowWorker (e : Engine) (window : list Row) (ingressRow : Row)
    : Step (list Row) (list Row) :=
  if (0 <? length window)%nat then
    andThen (EvalSessionCloseFilter (filter e) ingressRow) (λ closes,
      let keepOpen := negb closes in
      if keepOpen then stay (window ++ [ingressRow])
      else
        let window := [] in
        let window := if SessionIncludeClosingRow (windowOp e)
                      then window ++ [ingressRow] else window in
        after [window] (sessionOpen e window ingressRow))
  else sessionOpen e window ingressRow.

Definition groupedSessionOpen (e : Engine) (wg : WindowGroup) (ingressRow : Row)
    : Step WindowGroup (list Row) :=
  andThen (EvalSessionOpenFilter (filter e) ingressRow) (λ opens,
    if opens then andThen (Append wg ingressRow) stay else stay wg).

(** [SessionWindowWorker] with group fields; the state is [wg]. *)
Definition GroupedSessionWindowWorker (e : Engine) (wg : WindowGroup) (ingressRow : Row)
    : Step WindowGroup (list Row) :=
  andThen (GroupKey wg ingressRow) (λ key,
    if IsOpen wg key then
      andThen (EvalSessionCloseFilter (filter e) ingressRow) (λ closes,
        let keepOpen := negb closes in
        if keepOpen then andThen (Append wg ingressRow) stay
        else
          match Close wg key with
          | (None, wg) => stay wg
          | (Some window, wg) =>
              let window := if SessionIncludeClosingRow (windowOp e)
                            then window ++ [ingressRow] else window in
              after [window] (groupedSessionOpen e wg ingressRow)
          end)
    else groupedSessionOpen e wg ingressRow).

(** *** Windows of event time *)

Definition surroundingTimeInterval (t slice : Z) : Z * Z :=
  let lo := GoTime.Truncate t slice in
  let hi := GoTime.Add lo slice in
  (lo, hi).

(** [time.Second * time.Duration(e.window.TickerSeconds)] *)
Definition chunkDuration (e : Engine) : Z :=
  wrap64 (GoTime.Second * int64_of_float64 (TickerSeconds (window e))).

(** [ReplayTimeWindowWorker] without group fields; the state is the pair
    of the variables [window] and [hi]. *)
Definition ReplayTimeWindowWorker (e : Engine) (st : list Row * Z) (ingressRow : Row)
    : Step (list Row * Z) (list Row) :=
  let '(window, hi) := st in
  andThen (Timestamp ingressRow (SequenceField (windowOp e))) (λ t,
    if GoTime.Before hi t then
      let out := if (0 <? length window)%nat then [window] else [] in
      send out ([ingressRow], (surroundingTimeInterval t (chunkDuration e)).2)
    else stay (window ++ [ingressRow], hi)).

(** [ReplayTimeWindowWorker] with group fields; the state is the pair of
    [wg] and [hi]. *)
Definition GroupedReplayTimeWindowWorker (e : Engine) (st : WindowGroup * Z) (ingressRow : Row)
    : Step (WindowGroup * Z) (list Row) :=
  let '(wg, hi) := st in
  andThen (Timestamp ingressRow (SequenceField (windowOp e))) (λ t,
    if GoTime.Before hi t then
      let '(out, wg) := closeAll (AllGroupKeys wg) wg in
      let hi := (surroundingTimeInterval t (chunkDuration e)).2 in
      after out (andThen (Append wg ingressRow) (λ wg, stay (wg, hi)))
    else andThen (Append wg ingressRow) (λ wg, stay (wg, hi))).

(** *** Windows of wall-clock time

    The worker owns the variable [window]; a goroutine appends the rows
    to it and the loop sends it at every tick of the ticker.  The mutex
    orders the two, so the worker is a step function over the sequence of
    rows and ticks. *)

Inductive LiveEvent :=
| Arrival (ingressRow : Row)
| Tick.

Definition LiveTimeWindowWorker (window : list Row) (ev : LiveEvent)
    : Step (list Row) (list Row) :=
  match ev with
  | Arrival ingressRow => stay (window ++ [ingressRow])
  | Tick => send [window] []
  end.

Definition GroupedLiveTimeWindowWorker (wg : WindowGroup) (ev : LiveEvent)
    : Step WindowGroup (list Row) :=
  match ev with
  | Arrival ingressRow => andThen (Append wg ingressRow) stay
  | Tick => let '(out, wg) := closeAll (AllGroupKeys wg) wg in send out wg
  end.

(** *** Aggregate *)

(** The state of [AggregateWorker]: the operator with its functors, and
    whether the loop has been left. *)
Record AggregateState := {
  operator : Aggregate;
  returned : bool
}.

Definition AggregateWorker (e : Engine) (st : AggregateState) (window : list Row)
    : Step AggregateState Row :=
  if returned st then stay st
  else
    let o := Aggregate_Reset (operator st) in
    match window with
    | [] => stay {| operator := o; returned := true |}
    | ingressRow :: _ =>
        let group := Row_Group ingressRow in
        andThen (foldM Aggregate_Update window o) (λ o,
          andThen (Aggregate_Value o (schemas e)) (λ payload,
            send [ {| Row_Group := group; Row_Payload := payload |} ]
                 {| operator := o; returned := false |}))
    end.

(** *** Project and egress *)

Definition ProjectWorker (e : Engine) (_ : unit) (aggregateRow : Row) : Step unit Row :=
  andThen (Operator.Project (project e) (schemas e) aggregateRow) (λ row, send [row] tt).

Definition printFields (names : list string) (from : gmap string Value) : result (list string) :=
  foldM (λ record fieldName,
           getMethodName ← Utility.UpcaseFirstLetter fieldName;
           value ← InvokeWithoutParameters from getMethodName;
           Ok (record ++ [Fmt.Sprint (Some value)]))
        names [].

(** [EgressWorker]: the record written for a row. *)
Definition EgressWorker (e : Engine) (_ : unit) (egressRow : Row) : Step unit (list string) :=
  andThen (printFields (OutputFieldNames (egress e)) (Row_Payload egressRow)) (λ payload,
    andThen (printFields (GroupFieldNames (egress e)) (Row_Group egressRow)) (λ group,
      send [payload ++ group] tt)).

(** *** The pipeline *)

Inductive WindowMode := Session | LiveTime | ReplayTime | LiveDistance | ReplayDistance.

(** The switch of [WindowWorker]. *)
Definition windowMode (w : Window) : result WindowMode :=
  if String.eqb (WindowType w) Compiler.WindowTypeSession then Ok Session
  else if String.eqb (WindowType w) Compiler.WindowTypeSlice then
    if String.eqb (IntervalType w) Compiler.IntervalTypeTime then
      Ok (if String.eqb (SequenceField w) "" then LiveTime else ReplayTime)
    else if String.eqb (IntervalType w) Compiler.IntervalTypeDistance then
      Ok (if String.eqb (SequenceField w) "" then LiveDistance else ReplayDistance)
    else Panic "interval type not implemented"
  else Panic "window type not implemented".

Definition grouped (e : Engine) : bool :=
  negb (length (GroupFieldNames (Window_Operator (window e))) =? 0)%nat.

Definition forget {S O} (st : Step S O) : Step unit O :=
  (st.1, match st.2 with Ok _ => Ok tt | Err m => Err m | Panic m => Panic m end).

(** The windows that the window worker has sent when it has received the
    rows and waits for the next one, in the two modes that depend on the
    rows alone. *)
Definition WindowWorker (e : Engine) (rows : list Row) : Step unit (list Row) :=
  match windowMode (window e) with
  | Ok Session =>
      if grouped e
      then forget (runWorker (GroupedSessionWindowWorker e)
                     (CreateWindowGroup (GroupFieldNames (Window_Operator (window e)))) rows)
      else forget (runWorker (SessionWindowWorker e) [] rows)
  | Ok ReplayTime =>
      if grouped e
      then forget (runWorker (GroupedReplayTimeWindowWorker e)
                     (CreateWindowGroup (GroupFieldNames (Window_Operator (window e))),
                      GoTime.zeroTime) rows)
      else forget (runWorker (ReplayTimeWindowWorker e) ([], GoTime.zeroTime) rows)
  | Ok _ => ([], Err "a window mode driven by the wall clock or by row counts")
  | Err m => ([], Err m)
  | Panic m => ([], Panic m)
  end.

(** What a stage hands to the next one when it does not panic. *)
Definition completed {S O} (st : Step S O) : result (list O) :=
  match st.2 with
  | Ok _ => Ok st.1
  | Err m => Err m
  | Panic m => Panic m
  end.

(** [Run] on the records of the input, when the timer of the process
    outlasts the work: the records written to the output once every
    worker waits on an empty channel.  The channels are queues, so each
    worker sees the values in the order in which they were sent. *)
Definition Run (e : Engine) (records : list (list string)) : result (list (list string)) :=
  rows ← completed (runWorker (IngressWorker e) tt records);
  rows ← completed (runWorker (IngressFilterWorker e) tt rows);
  windows ← completed (WindowWorker e rows);
  rows ← completed (runWorker (AggregateWorker e)
                      {| operator := aggregate e; returned := false |} windows);
  rows ← completed (runWorker (AggregateFilterWorker e) tt rows);
  rows ← completed (runWorker (ProjectWorker e) tt rows);
  rows ← completed (runWorker (ProjectFilterWorker e) tt rows);
  completed (runWorker (EgressWorker e) tt rows).

End Engine.

(** ** The build of an engine ([Makefile], target [build_engine])

    The compiler writes the plan and the Go source of the filters; the
    engine is built with that source and reads the plan. *)

Module Build.

Import Compiler Functions.

(** The five conditions as the Go parser reads them from the generated
    source, in the order ingress, session open, session close, aggregate,
    project; [None] for a function without condition. *)
Record Conditions := {
  ingressCondition : option GoExpr;
  sessionOpenCondition : option GoExpr;
  sessionCloseCondition : option GoExpr;
  aggregateCondition : option GoExpr;
  projectCondition : option GoExpr
}.

Definition noConditions : Conditions :=
  {| ingressCondition := None; sessionOpenCondition := None; sessionCloseCondition := None;
     aggregateCondition := None; projectCondition := None |}.

(** Whether the tree is the reading of the text that [ExitQueryClause]
    passed to [GoEval], or absent where it wrote a pass-through. *)
Definition reads (generated : bool) (text : string) (tree : option GoExpr) : bool :=
  match generated, tree with
  | true, Some t => String.eqb (render t) text && parsed t
  | false, None => true
  | _, _ => false
  end.

Definition nodeFields (l : queryListener) (typ : OperatorType) : list Field :=
  default [] (Node_Fields <$> FindFirstNodeByType (queryPlan l) typ).

(** The package [functions] built from the generated source. *)
Definition functionsPackage (l : queryListener) (c : Conditions) : result Filter :=
  let g := goCode l in
  if reads (hasIngressFilter l) (Condition (IngressFilter g)) (ingressCondition c)
     && reads (hasSessionWindow l) (Condition (SessionOpen g)) (sessionOpenCondition c)
     && reads (hasSessionWindow l) (Condition (SessionClose g)) (sessionCloseCondition c)
     && reads (hasAggregateFilter l) (Condition (AggregateFilter g)) (aggregateCondition c)
     && reads (hasProjectFilter l) (Condition (ProjectFilter g)) (projectCondition c)
  then
    Ok {| IngressFields := nodeFields l OperatorType_ingress;
          AggregateFields := nodeFields l OperatorType_aggregate;
          EgressFields := nodeFields l OperatorType_egress;
          IngressCondition := ingressCondition c;
          SessionOpenCondition := sessionOpenCondition c;
          SessionCloseCondition := sessionCloseCondition c;
          AggregateCondition := aggregateCondition c;
          ProjectCondition := projectCondition c |}
  else Err "the trees are not the conditions of the generated source".

(** The engine for a query: compiled, built and started on its plan. *)
Definition engineFor (sys : System) (q : QueryClauseContext) (c : Conditions) : result Engine.Engine :=
  l ← parseQuery sys q;
  f ← functionsPackage l c;
  Engine.NewEngine (queryPlan l) (dataSchemas l) f.

End Build.

(** ** The scenarios *)

Module Scenario.

Import Compiler Functions Engine Build.

Definition dataField (name : string) (typ : FieldType) : Field :=
  {| Field_Name := name; Field_Description := ""; Field_Type := typ;
     Field_Usage := FieldUsage_data; Field_Properties := [] |}.

Definition timeField (name : string) : Field :=
  {| Field_Name := name; Field_Description := ""; Field_Type := FieldType_text;
     Field_Usage := FieldUsage_time; Field_Properties := [] |}.

(** A catalog with the tables [foo(x, t)], [events(action, t)],
    [ratio(x, y)] and [pairs(g1, g2, x, t)]. *)
Definition catalog : System :=
  {| System_Name := "sys";
     System_Databases :=
       [ {| Database_Name := "db";
            Database_Schemas :=
              [ {| Schema_Name := "sch";
                   Schema_Tables :=
                     [ {| Table_Name := "foo";
                          Table_Fields := [dataField "x" FieldType_integer64; timeField "t"] |};
                       {| Table_Name := "events";
                          Table_Fields := [dataField "action" FieldType_text; timeField "t"] |};
                       {| Table_Name := "ratio";
                          Table_Fields := [dataField "x" FieldType_integer64;
                                           dataField "y" FieldType_integer64] |};
                       {| Table_Name := "pairs";
                          Table_Fields := [dataField "g1" FieldType_text;
                                           dataField "g2" FieldType_text;
                                           dataField "x" FieldType_integer64;
                                           timeField "t"] |} ] |} ] |} ] |}.

Definition seconds (amount : string) : DurationContext :=
  {| Duration_Amount := amount; Duration_Unit := UQLParserSECONDS |}.

Definition as_ (a : AggregateContext) (name : string) : AggregationContext :=
  {| Aggregation_Aggregate := a; Aggregation_FieldName := name |}.

(** Scenario 1: [from sys.db.sch.foo window slice 10 seconds based on t
    aggregate avg(x) as a, sum(x) as s, count as n, first(t) as begin,
    last(t) as e append a, s, n, e to bar], the count being written
    as [count] for the alternative with the function given here. *)
Definition query1 (count : AggregateContext) : QueryClauseContext :=
  {| FromClause := "sys.db.sch.foo"; GroupClause := None; IngressWhereClause := None;
     WindowClause := SliceWindowContext (SliceDuration (seconds "10")) (Some "t");
     AggregateClause :=
       [ as_ (AggregateAverageContext "x") "a"; as_ (AggregateSumContext "x") "s";
         as_ count "n"; as_ (AggregateFirstContext "t") "begin";
         as_ (AggregateLastContext "t") "e" ];
     AggregateWhereClause := None; AppendClause := ["a"; "s"; "n"; "e"];
     ProjectWhereClause := None; ToClause := "bar" |}.

Definition at_ (secs : string) : string := "2030-01-01T17:00:" +:+ secs +:+ "-07:00".

Definition input1 : list (list string) :=
  [ ["1"; at_ "01"]; ["2"; at_ "04"]; ["3"; at_ "11"]; ["4"; at_ "12"]; ["5"; at_ "17"];
    ["6"; at_ "26"]; ["7"; at_ "40"]; ["8"; at_ "43"]; ["9"; at_ "49"] ].

Definition engine1 : result Engine :=
  engineFor catalog (query1 (AggregateCountContext "x")) noConditions.

(** The four rows that the specification expects for scenario 1. *)
Definition expected1 : list (list string) :=
  [ ["1.5"; "3"; "2"; at_ "04"]; ["4"; "12"; "3"; at_ "17"];
    ["6"; "6"; "1"; at_ "26"]; ["8"; "24"; "3"; at_ "49"] ].

(** The rows that a worker receives from the ingress worker. *)
Definition rowsOf (e : Engine) (records : list (list string)) : result (list Row) :=
  completed (runWorker (IngressWorker e) tt records).

(** Scenario 6: [... aggregate avg(doesNotExist) as a append a to bar]. *)
Definition query6 : QueryClauseContext :=
  {| FromClause := "sys.db.sch.foo"; GroupClause := None; IngressWhereClause := None;
     WindowClause := SliceWindowContext (SliceDuration (seconds "10")) None;
     AggregateClause := [ as_ (AggregateAverageContext "doesNotExist") "a" ];
     AggregateWhereClause := None; AppendClause := ["a"];
     ProjectWhereClause := None; ToClause := "bar" |}.

Definition variable (name : string) : TermContext := IgnoreMeBasicContext (VariableContext name).
Definition text (s : string) : TermContext := IgnoreMeBasicContext (StringContext (dq +:+ s +:+ dq)).
Definition integer (s : string) : TermContext := IgnoreMeBasicContext (IntegerContext s).

(** Scenario 4: [from sys.db.sch.events window session begin when
    action == "in" end when action == "out" inclusive expire after 5
    seconds aggregate first(t) as b, last(t) as e append b, e to bar],
    and the same with [exclusive]. *)
Definition query4 (groups : option (list string)) (clusivity : clusivityToken) : QueryClauseContext :=
  {| FromClause := "sys.db.sch.events"; GroupClause := groups; IngressWhereClause := None;
     WindowClause :=
       SessionWindowContext
         (EquationContext UQLParserEQ (variable "action") (text "in"))
         (EquationContext UQLParserEQ (variable "action") (text "out"))
         clusivity (seconds "5");
     AggregateClause := [ as_ (AggregateFirstContext "t") "b"; as_ (AggregateLastContext "t") "e" ];
     AggregateWhereClause := None; AppendClause := ["b"; "e"];
     ProjectWhereClause := None; ToClause := "bar" |}.

Definition actionIs (s : string) : GoExpr :=
  ECmp UQLParserEQ (EField "action") (EString (dq +:+ s +:+ dq)).

Definition conditions4 : Conditions :=
  {| ingressCondition := None;
     sessionOpenCondition := Some (actionIs "in");
     sessionCloseCondition := Some (actionIs "out");
     aggregateCondition := None; projectCondition := None |}.

Definition engine4 (clusivity : clusivityToken) : result Engine :=
  engineFor catalog (query4 None clusivity) conditions4.

Definition input4 : list (list string) :=
  [ ["in"; at_ "01"]; ["mid"; at_ "02"]; ["mid"; at_ "03"]; ["out"; at_ "04"];
    ["noise"; at_ "05"]; ["in"; at_ "06"]; ["out"; at_ "07"] ].

(** A filter with a division: [from sys.db.sch.ratio where x / y > 0
    window slice 10 seconds aggregate sum(x) as s append s to bar]. *)
Definition query5 : QueryClauseContext :=
  {| FromClause := "sys.db.sch.ratio"; GroupClause := None;
     IngressWhereClause :=
       Some (EquationContext UQLParserGT
               (MulDivModContext UQLParserDIV (variable "x") (variable "y")) (integer "0"));
     WindowClause := SliceWindowContext (SliceDuration (seconds "10")) None;
     AggregateClause := [ as_ (AggregateSumContext "x") "s" ];
     AggregateWhereClause := None; AppendClause := ["s"];
     ProjectWhereClause := None; ToClause := "bar" |}.

Definition condition5 : GoExpr :=
  ECmp UQLParserGT (EArith OpDiv (EField "x") (EField "y")) (EInt "0").

Definition engine5 : result Engine :=
  engineFor catalog query5
    {| ingressCondition := Some condition5; sessionOpenCondition := None;
       sessionCloseCondition := None; aggregateCondition := None; projectCondition := None |}.

Definition input5 : list (list string) := [ ["1"; "0"]; ["4"; "2"] ].

(** The fields of the table [ratio], which the ingress node takes. *)
Definition Table_Fields_of_ratio : list Field :=
  [dataField "x" FieldType_integer64; dataField "y" FieldType_integer64].

(** The rows that the ingress worker makes of the records of the
    scenarios. *)
Definition sample (x : Z) (secs : string) : Row :=
  {| Row_Group := ∅;
     Row_Payload := <["X" := VInt x]> (<["T" := VText (at_ secs)]> ∅) |}.

Definition event (action secs : string) : Row :=
  {| Row_Group := ∅;
     Row_Payload := <["Action" := VText action]> (<["T" := VText (at_ secs)]> ∅) |}.

Definition ratio (x y : Z) : Row :=
  {| Row_Group := ∅;
     Row_Payload := <["X" := VInt x]> (<["Y" := VInt y]> ∅) |}.

(** A row of [pairs] grouped by [g1] and [g2]. *)
Definition pair (g1 g2 : string) (x : Z) (secs : string) : Row :=
  {| Row_Group := <["G1" := VText g1]> (<["G2" := VText g2]> ∅);
     Row_Payload := <["G1" := VText g1]> (<["G2" := VText g2]>
                      (<["X" := VInt x]> (<["T" := VText (at_ secs)]> ∅))) |}.

End Scenario.

(** ** Notions of the statements *)

Import Compiler Functor Operator Functions Engine Build Scenario.

(** The value of a group field of a row, as [GroupKey] reads it. *)
Definition groupValue (row : Row) (name : string) : result Value :=
  getMethodName ← Utility.UpcaseFirstLetter name;
  InvokeWithoutParameters (Row_Group row) getMethodName.

(** The evaluation of the expression on the payload [p] reaches a division
    or a remainder whose divisor is the [int64] value zero. *)
Inductive DividesByZero (p : gmap string GoValue) : GoExpr → Prop :=
| divides_here op x y py :
    op ∈ [OpDiv; OpMod] → eval p y = Ok (GInt 0, py) → DividesByZero p (EArith op x y)
| divides_arith_l op x y : DividesByZero p x → DividesByZero p (EArith op x y)
| divides_arith_r op x y : DividesByZero p y → DividesByZero p (EArith op x y)
| divides_cmp_l op x y : DividesByZero p x → DividesByZero p (ECmp op x y)
| divides_cmp_r op x y : DividesByZero p y → DividesByZero p (ECmp op x y)
| divides_compare_l x y : DividesByZero p x → DividesByZero p (ECompare x y)
| divides_compare_r x y : DividesByZero p y → DividesByZero p (ECompare x y)
| divides_not x : DividesByZero p x → DividesByZero p (ENot x)
| divides_paren x : DividesByZero p x → DividesByZero p (EParen x)
| divides_and_l x y : DividesByZero p x → DividesByZero p (EAnd x y)
| divides_and_r x y px :
    eval p x = Ok (GBool true, px) → DividesByZero p y → DividesByZero p (EAnd x y)
| divides_or_l x y : DividesByZero p x → DividesByZero p (EOr x y)
| divides_or_r x y px :
    eval p x = Ok (GBool false, px) → DividesByZero p y → DividesByZero p (EOr x y).

(** The rows that a filter worker forwards. *)
Definition passing (eval : Row → result bool) (rows : list Row) : list Row :=
  List.filter (λ r, match eval r with Ok true => true | _ => false end) rows.

(** Name, type and usage of a field. *)
Definition signature (f : Field) : string * FieldType * FieldUsage :=
  (Field_Name f, Field_Type f, Field_Usage f).

(** The output schema of the node of a type in a plan. *)
Definition outputSchema (plan : Plan) (typ : OperatorType)
    : option (list (string * FieldType * FieldUsage)) :=
  (λ node, signature <$> Node_Fields node) <$> FindFirstNodeByType plan typ.

(** The three nodes of the claim. *)
Definition upstream : list OperatorType :=
  [OperatorType_ingress; OperatorType_ingressFilter; OperatorType_window].

(** A step of the walk keeps the output schema of the three nodes. *)
Definition keeps (step : queryListener → result queryListener) : Prop :=
  ∀ l l', step l = Ok l' →
          ∀ typ, typ ∈ upstream → outputSchema (queryPlan l') typ = outputSchema (queryPlan l) typ.

(** A step that leaves the plan alone. *)
Definition samePlan (step : queryListener → result queryListener) : Prop :=
  ∀ l l', step l = Ok l' → queryPlan l' = queryPlan l.

(** Membership in the list of the three nodes, for a given type. *)
Ltac not_upstream :=
  let H := fresh in
  intros H; apply list_elem_of_In in H; simpl in H; intuition discriminate.

Ltac is_upstream := apply list_elem_of_In; simpl; tauto.

(** * Theorems *)

(** ** The outcome monad and the workers *)

Lemma bind_Ok {A B} (m : result A) (f : A → result B) (b : B) :
  m ≫= f = Ok b → ∃ a, m = Ok a ∧ f a = Ok b.
Proof. destruct m as [a| |]; simpl; intros H; [eauto | discriminate..]. Qed.

Lemma runWorker_app {S I O} (step : S → I → Step S O) (s : S) (l1 l2 : list I) :
  runWorker step s (l1 ++ l2) =
  match runWorker step s l1 with
  | (out, Ok s') => after out (runWorker step s' l2)
  | r => r
  end.
Proof.
  revert s; induction l1 as [|i l1 IH]; intros s; simpl.
  - unfold after; simpl. by destruct (runWorker step s l2).
  - destruct (step s i) as [out [s'| |]]; try reflexivity.
    rewrite IH. destruct (runWorker step s' l1) as [out' [s''| |]]; try reflexivity.
    unfold after; simpl. by rewrite app_assoc.
Qed.

(** A worker sends nothing while none of its steps sends anything. *)
Lemma runWorker_silent {S I O} (step : S → I → Step S O) (inputs : list I) :
  (∀ s i, i ∈ inputs → (step s i).1 = []) →
  ∀ s, (runWorker step s inputs).1 = [].
Proof.
  induction inputs as [|i rest IH]; intros Hsilent s; simpl; [reflexivity|].
  pose proof (Hsilent s i ltac:(left)) as Hi.
  destruct (step s i) as [out [s'| |]]; simpl in *; subst; try reflexivity.
  apply IH. intros s0 i0 Hin. apply Hsilent. by right.
Qed.

(** ** The scenarios run *)

(** The ingress worker turns the records of the scenarios into the rows
    named in [Scenario]. *)
Lemma rows_of_scenario1 :
  (e ← engine1; rowsOf e input1) =
  Ok [ sample 1 "01"; sample 2 "04"; sample 3 "11"; sample 4 "12"; sample 5 "17";
       sample 6 "26"; sample 7 "40"; sample 8 "43"; sample 9 "49" ].
Proof. vm_compute. reflexivity. Qed.

Lemma rows_of_scenario4 (c : clusivityToken) :
  (e ← engine4 c; rowsOf e input4) =
  Ok [ event "in" "01"; event "mid" "02"; event "mid" "03"; event "out" "04";
       event "noise" "05"; event "in" "06"; event "out" "07" ].
Proof. destruct c; vm_compute; reflexivity. Qed.

(** The conditions of scenario 4 are the ones that the compiler generated. *)
Lemma conditions_of_scenario4 :
  (l ← parseQuery catalog (query4 None UQLParserINCLUSIVE);
   Ok (Condition (SessionOpen (goCode l)), Condition (SessionClose (goCode l)))) =
  Ok (render (actionIs "in"), render (actionIs "out")).
Proof. vm_compute. reflexivity. Qed.

(** C1 (the code departs from the claim).  Scenario 4 without group by and
    with an inclusive close: the records [in, mid, mid, out, noise, in, out]
    make the session worker send two windows, and each holds the closing
    row alone; the rows [in] and [mid] of the sessions are in no window. *)
Theorem C1_session_window_holds_closing_row_only :
  (e ← engine4 UQLParserINCLUSIVE;
   rows ← rowsOf e input4;
   Ok (runWorker (SessionWindowWorker e) [] rows).1) =
  Ok [ [event "out" "04"]; [event "out" "07"] ].
Proof. vm_compute. reflexivity. Qed.

(** The path with group fields keeps the rows of the session: on the same
    records grouped by nothing but with a window per key, here the rows of
    one open window and the row that closes it. *)
Lemma grouped_session_close_keeps_rows (e : Engine) (wg : WindowGroup) (row : Row)
    (key : string) (open : list Row) :
  GroupKey wg row = Ok key →
  windows wg !! key = Some open →
  EvalSessionCloseFilter (filter e) row = Ok true →
  SessionIncludeClosingRow (windowOp e) = true →
  (GroupedSessionWindowWorker e wg row).1 = [open ++ [row]].
Proof.
  intros Hkey Hopen Hclose Hincl. unfold GroupedSessionWindowWorker.
  rewrite Hkey; simpl. unfold IsOpen. rewrite Hopen.
  rewrite bool_decide_eq_true_2 by eauto.
  rewrite Hclose; simpl. unfold Close. rewrite Hopen, Hincl.
  unfold after, groupedSessionOpen; simpl.
  destruct (EvalSessionOpenFilter (filter e) row) as [[|]| |]; simpl;
    try reflexivity.
  by destruct (Append _ row).
Qed.

(** What the worker without group fields does when a row closes the
    session: the window that it sends is built anew. *)
Lemma session_close_sends_new_window (e : Engine) (open : list Row) (row : Row) :
  open ≠ [] →
  EvalSessionCloseFilter (filter e) row = Ok true →
  (SessionWindowWorker e open row).1 =
  [if SessionIncludeClosingRow (windowOp e) then [row] else []].
Proof.
  intros Hopen Hclose. unfold SessionWindowWorker.
  destruct open as [|r open]; [done|]. simpl. rewrite Hclose. simpl.
  unfold after, sessionOpen.
  destruct (SessionIncludeClosingRow (windowOp e));
    destruct (EvalSessionOpenFilter (filter e) row) as [[|]| |]; reflexivity.
Qed.

(** C2, the claim as stated fails: the engine does not write the four rows. *)
Lemma C2_counterexample :
  (e ← engine1; Run e input1) ≠ Ok expected1.
Proof. vm_compute. discriminate. Qed.

(** C2 (amended).  On the nine records of scenario 1, with a window of 10
    seconds of event time on [t] and the aggregations avg(x), sum(x), count,
    first(t), last(t), the engine writes the three rows (1.5, 3, 2, :04),
    (4, 12, 3, :17) and (6, 6, 1, :26); the bucket from :30 to :40 gives no
    row; the rows of :40, :43 and :49 are in the window that is open when the
    input ends, which the window worker has not sent. *)
Theorem C2_scenario1_three_rows :
  (e ← engine1; Run e input1) =
    Ok [ ["1.5"; "3"; "2"; at_ "04"]; ["4"; "12"; "3"; at_ "17"]; ["6"; "6"; "1"; at_ "26"] ]
  ∧ (e ← engine1;
     rows ← rowsOf e input1;
     Ok (runWorker (ReplayTimeWindowWorker e) ([], GoTime.zeroTime) rows)) =
    Ok ([ [sample 1 "01"; sample 2 "04"];
          [sample 3 "11"; sample 4 "12"; sample 5 "17"];
          [sample 6 "26"] ],
        Ok ([sample 7 "40"; sample 8 "43"; sample 9 "49"], 64029139250000000000)).
Proof. split; vm_compute; reflexivity. Qed.

(** A row whose time stamp is the bound [hi] of the open bucket goes into
    the open window: [hi.Before(t)] is false for it. *)
Lemma replay_row_at_bound_joins_open_window (e : Engine) (open : list Row) (hi : Z) (row : Row) :
  Timestamp row (SequenceField (windowOp e)) = Ok hi →
  ReplayTimeWindowWorker e (open, hi) row = stay (open ++ [row], hi).
Proof.
  intros Ht. unfold ReplayTimeWindowWorker. rewrite Ht. simpl.
  unfold GoTime.Before. by rewrite Z.ltb_irrefl.
Qed.

(** C3 (the code departs from the claim).  After the row of :01 the open
    bucket of 10 seconds ends at :10; the row of :10 has exactly that time
    stamp and is sent in the window of that bucket, together with the row of
    :01, when the row of :21 arrives. *)
Theorem C3_row_at_high_bound_stays_in_bucket :
  (e ← engine1;
   Ok ((ReplayTimeWindowWorker e ([], GoTime.zeroTime) (sample 1 "01")).2,
       Timestamp (sample 2 "10") (SequenceField (windowOp e)),
       (runWorker (ReplayTimeWindowWorker e) ([], GoTime.zeroTime)
          [sample 1 "01"; sample 2 "10"; sample 3 "21"]).1)) =
  Ok (Ok ([sample 1 "01"], 64029139210000000000),
      Ok 64029139210000000000,
      [ [sample 1 "01"; sample 2 "10"] ]).
Proof. vm_compute. reflexivity. Qed.

(** [FindField] returns the last field of the table, and no error, for a
    name that no field has. *)
Lemma FindField_of_missing_name (sys : System) (fullTableName fieldName : string) (table : Table) :
  Catalog.FindTable sys fullTableName = Ok table →
  (∀ f, f ∈ Table_Fields table → Field_Name f ≠ fieldName) →
  Catalog.FindField sys fullTableName fieldName =
  Ok (default zeroField (last (Table_Fields table))).
Proof.
  intros Htable Hnone. unfold Catalog.FindField. rewrite Htable. simpl. f_equal.
  generalize zeroField. induction (Table_Fields table) as [|f fs IH]; intros d; [reflexivity|].
  simpl. destruct (String.eqb_spec (Field_Name f) fieldName) as [Heq|_].
  - exfalso. eapply Hnone; [left|done].
  - rewrite IH by (intros g Hg; apply Hnone; by right).
    destruct fs as [|f0 fs]; [reflexivity|].
    change (last (f :: f0 :: fs)) with (last (f0 :: fs)).
    destruct (last (f0 :: fs)) eqn:Hlast; [reflexivity|].
    by apply last_None in Hlast.
Qed.

(** C4 (the code departs from the claim).  The query of scenario 6 on the
    table [sys.db.sch.foo], which has no field [doesNotExist]: the compiler
    ends with status 0 and writes a plan, in which the call of [average]
    reads the last field of the table, [t]. *)
Theorem C4_missing_aggregate_field_compiles :
  exitStatus (Compile catalog query6) = 0
  ∧ (Node_Calls <$> (stdout (Compile catalog query6)
                      ≫= λ plan, FindFirstNodeByType plan OperatorType_aggregate)) =
    Some [ {| Call_Function :=
                {| Function_Name := "average"; Function_IsAggregate := true;
                   Function_IsBuiltIn := true; Function_InputTypes := [FieldType_text];
                   Function_OutputType := FieldType_float64; Function_OutputName := "a" |};
              Call_InputFields := [timeField "t"];
              Call_OutputField := dataField "a" FieldType_float64 |} ].
Proof. split; vm_compute; reflexivity. Qed.

(** ** Group keys *)

Lemma append_assoc (a b c : string) : (a +:+ b) +:+ c = a +:+ (b +:+ c).
Proof.
  induction a as [|ch a IH]; [reflexivity|].
  change (String ch ((a +:+ b) +:+ c) = String ch (a +:+ (b +:+ c))). by f_equal.
Qed.

Lemma append_empty (a : string) : a +:+ "" = a.
Proof.
  induction a as [|ch a IH]; [reflexivity|].
  change (String ch (a +:+ "") = String ch a). by f_equal.
Qed.

(** The key of a row is the concatenation, without separator, of the
    printed values of the group fields in the order of their declaration. *)
Lemma GroupKey_is_concatenation (wg : WindowGroup) (row : Row) (values : list Value) :
  Forall2 (λ name v, groupValue row name = Ok v) (groupFieldNames wg) values →
  GroupKey wg row = Ok (String.concat "" (List.map (λ v, Fmt.Sprint (Some v)) values)).
Proof.
  unfold GroupKey. generalize (groupFieldNames wg) as names. intros names Hall.
  set (f := λ (key name : string), _).
  assert (H : ∀ key, foldM f names key =
                     Ok (key +:+ String.concat "" (List.map (λ v, Fmt.Sprint (Some v)) values))).
  { induction Hall as [|name v names values Hv Hall IH]; intros key.
    - simpl. by rewrite append_empty.
    - cbn [foldM]. unfold f at 1. unfold groupValue in Hv.
      destruct (Utility.UpcaseFirstLetter name) as [m| |]; simpl in Hv; try discriminate.
      simpl. rewrite Hv. simpl. rewrite IH.
      f_equal. rewrite append_assoc. f_equal.
      destruct values; simpl; [by rewrite append_empty | reflexivity]. }
  exact (H "").
Qed.

(** C9.  Two rows whose group values differ, ("a", "bc") and ("ab", "c")
    for the group fields g1 and g2, have the same group key "abc", and
    [Append] puts them into the same open window. *)
Theorem C9_group_key_collision :
  ∃ r1 r2 : Row,
    let wg := CreateWindowGroup ["g1"; "g2"] in
    (groupValue r1 "g1", groupValue r1 "g2") = (Ok (VText "a"), Ok (VText "bc"))
    ∧ (groupValue r2 "g1", groupValue r2 "g2") = (Ok (VText "ab"), Ok (VText "c"))
    ∧ GroupKey wg r1 = Ok "abc"
    ∧ GroupKey wg r2 = Ok "abc"
    ∧ (wg ← Append wg r1; wg ← Append wg r2; Ok (windows wg)) = Ok {[ "abc" := [r1; r2] ]}.
Proof.
  exists (pair "a" "bc" 1 "01"), (pair "ab" "c" 2 "02").
  repeat split; vm_compute; reflexivity.
Qed.

(** ** The aggregate worker and the empty window *)

Lemma AggregateWorker_returned (e : Engine) (st : AggregateState) (windows : list (list Row)) :
  returned st = true →
  runWorker (AggregateWorker e) st windows = ([], Ok st).
Proof.
  intros Hret. induction windows as [|w ws IH]; simpl; [reflexivity|].
  unfold AggregateWorker at 1. rewrite Hret. simpl. rewrite IH. reflexivity.
Qed.

Lemma AggregateWorker_empty_window (e : Engine) (st : AggregateState) :
  ∃ st', AggregateWorker e st [] = ([], Ok st') ∧ returned st' = true.
Proof.
  unfold AggregateWorker. destruct (returned st) eqn:Hret.
  - exists st. by split.
  - eexists. split; reflexivity.
Qed.

(** C10.  A window without rows makes the aggregate worker leave its loop:
    whatever windows follow it, the worker sends no row for them.  The
    worker of wall-clock windows without group fields sends such a window
    at a tick that no row precedes, and the session worker without group
    fields sends one when a row closes an exclusive session. *)
Theorem C10_aggregate_stops_at_empty_window :
  (∀ (e : Engine) (st : AggregateState) (before later : list (list Row)),
     (runWorker (AggregateWorker e) st (before ++ [] :: later)).1 =
     (runWorker (AggregateWorker e) st before).1
     ∧ ∀ s, (runWorker (AggregateWorker e) st before).2 = Ok s →
            ∃ s', (runWorker (AggregateWorker e) st (before ++ [] :: later)).2 = Ok s'
                  ∧ returned s' = true)
  ∧ (∀ open : list Row,
       runWorker LiveTimeWindowWorker open [Tick; Tick] = ([open; []], Ok []))
  ∧ (∀ (e : Engine) (open : list Row) (row : Row),
       open ≠ [] →
       SessionIncludeClosingRow (windowOp e) = false →
       EvalSessionCloseFilter (filter e) row = Ok true →
       (SessionWindowWorker e open row).1 = [ [] ]).
Proof.
  split; [|split].
  - intros e st before later. rewrite runWorker_app.
    destruct (runWorker (AggregateWorker e) st before) as [out [s| |]] eqn:Hrun;
      simpl; try (split; [reflexivity | discriminate]).
    destruct (AggregateWorker_empty_window e s) as (s' & Hstep & Hret).
    rewrite Hstep, (AggregateWorker_returned e s' later Hret). simpl.
    split; [by rewrite !app_nil_r|].
    intros s0 _. by exists s'.
  - reflexivity.
  - intros e open row Hopen Hexcl Hclose.
    rewrite (session_close_sends_new_window e open row Hopen Hclose).
    by rewrite Hexcl.
Qed.

(** C10 at the exclusive variant of scenario 4: the first session that
    closes sends an empty window. *)
Lemma C10_witness :
  ∃ e, engine4 UQLParserEXCLUSIVE = Ok e
       ∧ (SessionWindowWorker e [event "in" "01"] (event "out" "04")).1 = [ [] ].
Proof.
  eexists. split; [vm_compute; reflexivity|].
  apply (proj2 (proj2 C10_aggregate_stops_at_empty_window));
    [discriminate | vm_compute; reflexivity..].
Defined.

(** ** Sessions and event time *)

Lemma SessionWindowWorker_silent (e : Engine) (open : list Row) (row : Row) :
  EvalSessionCloseFilter (filter e) row ≠ Ok true →
  (SessionWindowWorker e open row).1 = [].
Proof.
  intros Hne. unfold SessionWindowWorker, sessionOpen.
  destruct (0 <? length open)%nat.
  - destruct (EvalSessionCloseFilter (filter e) row) as [[|]| |]; simpl; try done.
  - by destruct (EvalSessionOpenFilter (filter e) row) as [[|]| |].
Qed.

Lemma GroupedSessionWindowWorker_silent (e : Engine) (wg : WindowGroup) (row : Row) :
  EvalSessionCloseFilter (filter e) row ≠ Ok true →
  (GroupedSessionWindowWorker e wg row).1 = [].
Proof.
  intros Hne. unfold GroupedSessionWindowWorker, groupedSessionOpen.
  destruct (GroupKey wg row) as [key| |]; simpl; try reflexivity.
  destruct (IsOpen wg key).
  - destruct (EvalSessionCloseFilter (filter e) row) as [[|]| |]; simpl; try done.
    by destruct (Append wg row).
  - destruct (EvalSessionOpenFilter (filter e) row) as [[|]| |]; simpl; try reflexivity.
    by destruct (Append wg row).
Qed.

(** C7, the claim as stated fails: with [expire after 5 seconds], a session
    opened at :01 is still open, and no window has been sent, after a row
    that arrives 40 seconds of event time later. *)
Lemma C7_counterexample :
  (e ← engine4 UQLParserINCLUSIVE;
   Ok (runWorker (SessionWindowWorker e) [] [event "in" "01"; event "mid" "41"])) =
  Ok ([], Ok [event "in" "01"; event "mid" "41"]).
Proof. vm_compute. reflexivity. Qed.

(** C7 (amended).  In session mode a window is sent only at a row that
    satisfies the end condition: while no row does, the worker sends
    nothing, with or without group fields, whatever its state and whatever
    the time stamps of the rows are. *)
Theorem C7_session_closes_only_at_end_condition (e : Engine) (rows : list Row) :
  (∀ row, row ∈ rows → EvalSessionCloseFilter (filter e) row ≠ Ok true) →
  (∀ open, (runWorker (SessionWindowWorker e) open rows).1 = [])
  ∧ (∀ wg, (runWorker (GroupedSessionWindowWorker e) wg rows).1 = []).
Proof.
  intros Hnone. split; intros s; apply runWorker_silent; intros s' row Hin.
  - apply SessionWindowWorker_silent. by apply Hnone.
  - apply GroupedSessionWindowWorker_silent. by apply Hnone.
Qed.

Lemma C7_witness :
  ∃ e, engine4 UQLParserINCLUSIVE = Ok e
       ∧ (runWorker (SessionWindowWorker e) [] [event "in" "01"; event "mid" "41"]).1 = [].
Proof.
  eexists. split; [vm_compute; reflexivity|].
  apply C7_session_closes_only_at_end_condition.
  intros row Hin. apply list_elem_of_In in Hin.
  destruct Hin as [<-|[<-|[]]]; vm_compute; discriminate.
Defined.

(** ** Division by zero in a filter *)

Lemma firstPanic_l (a b : option string) : is_Some a → is_Some (firstPanic a b).
Proof. intros [m ->]. simpl. eauto. Qed.

Lemma firstPanic_r (a b : option string) : is_Some b → is_Some (firstPanic a b).
Proof. intros [m ->]. destruct a; simpl; eauto. Qed.

Lemma binary_Ok (f : GoValue → GoValue → result Ev) (rx ry : result Ev) (v : GoValue)
    (pv : option string) :
  binary f rx ry = Ok (v, pv) →
  ∃ x px y py pf, rx = Ok (x, px) ∧ ry = Ok (y, py) ∧ f x y = Ok (v, pf)
                  ∧ pv = firstPanic px (firstPanic py pf).
Proof.
  unfold binary. destruct rx as [[x px]| |]; simpl; try discriminate.
  destruct ry as [[y py]| |]; simpl; try discriminate.
  destruct (f x y) as [[w pf]| |] eqn:Hf; simpl; try discriminate.
  intros [= <- <-]. by exists x, px, y, py, pf.
Qed.

Lemma arithInt_zero (op : arithOp) (a : Z) (v : GoValue) (pv : option string) :
  op ∈ [OpDiv; OpMod] → arithInt op a 0 = Ok (v, pv) → is_Some pv.
Proof.
  intros Hop. apply list_elem_of_In in Hop. destruct Hop as [<-|[<-|[]]]; simpl;
    intros [= <- <-]; eauto.
Qed.

Lemma arith_zero (op : arithOp) (x v : GoValue) (pv : option string) :
  op ∈ [OpDiv; OpMod] → arith op x (GInt 0) = Ok (v, pv) → is_Some pv.
Proof.
  intros Hop. unfold arith.
  destruct x as [b|f|a|s|t|i|q]; try discriminate.
  - by apply arithInt_zero.
  - destruct (constToInt (CInt i)) as [a| |]; simpl; try discriminate. by apply arithInt_zero.
  - destruct (constToInt (CFloat q)) as [a| |]; simpl; try discriminate. by apply arithInt_zero.
Qed.

Lemma shortCircuit_Ok (stop : bool) (rx ry : result Ev) (v : GoValue) (pv : option string) :
  shortCircuit stop rx ry = Ok (v, pv) →
  ∃ a px b py, rx = Ok (GBool a, px) ∧ ry = Ok (GBool b, py)
               ∧ pv = if Bool.eqb a stop then px else firstPanic px py.
Proof.
  unfold shortCircuit. destruct rx as [[x px]| |]; simpl; try discriminate.
  destruct ry as [[y py]| |]; simpl; try discriminate.
  destruct x as [a| | | | | |]; try discriminate.
  destruct y as [b| | | | | |]; try discriminate.
  intros H. exists a, px, b, py. repeat split.
  destruct (Bool.eqb a stop); by injection H as <- <-.
Qed.

(** An evaluation that reaches an integer division by zero panics, if the
    expression is one that the Go compiler accepts. *)
Lemma DividesByZero_panics (p : gmap string GoValue) (e : GoExpr) :
  DividesByZero p e → ∀ v pv, eval p e = Ok (v, pv) → is_Some pv.
Proof.
  induction 1 as [op x y py Hop Hy | op x y _ IH | op x y _ IH | op x y _ IH | op x y _ IH
                  | x y _ IH | x y _ IH | x _ IH | x _ IH | x y _ IH | x y px Hx _ IH
                  | x y _ IH | x y px Hx _ IH]; intros v pv Hev; simpl in Hev.
  - apply binary_Ok in Hev as (vx & px & vy & py' & pf & Hx & Hy' & Hf & ->).
    rewrite Hy in Hy'. injection Hy' as <- <-.
    apply firstPanic_r, firstPanic_r. by eapply arith_zero.
  - apply binary_Ok in Hev as (vx & px & vy & py' & pf & Hx & Hy' & Hf & ->).
    apply firstPanic_l. by eapply IH.
  - apply binary_Ok in Hev as (vx & px & vy & py' & pf & Hx & Hy' & Hf & ->).
    apply firstPanic_r, firstPanic_l. by eapply IH.
  - apply binary_Ok in Hev as (vx & px & vy & py' & pf & Hx & Hy' & Hf & ->).
    apply firstPanic_l. by eapply IH.
  - apply binary_Ok in Hev as (vx & px & vy & py' & pf & Hx & Hy' & Hf & ->).
    apply firstPanic_r, firstPanic_l. by eapply IH.
  - apply binary_Ok in Hev as (vx & px & vy & py' & pf & Hx & Hy' & Hf & ->).
    apply firstPanic_l. by eapply IH.
  - apply binary_Ok in Hev as (vx & px & vy & py' & pf & Hx & Hy' & Hf & ->).
    apply firstPanic_r, firstPanic_l. by eapply IH.
  - destruct (eval p x) as [[w pw]| |]; simpl in Hev; try discriminate.
    destruct w; try discriminate. injection Hev as <- <-. by eapply IH.
  - by eapply IH.
  - apply shortCircuit_Ok in Hev as (a & px & b & py & Hx & Hy & ->).
    specialize (IH _ _ Hx). destruct (Bool.eqb a false); [done | by apply firstPanic_l].
  - apply shortCircuit_Ok in Hev as (a & px' & b & py & Hx' & Hy & ->).
    rewrite Hx in Hx'. injection Hx' as <- <-. simpl.
    apply firstPanic_r. by eapply IH.
  - apply shortCircuit_Ok in Hev as (a & px & b & py & Hx & Hy & ->).
    specialize (IH _ _ Hx). destruct (Bool.eqb a true); [done | by apply firstPanic_l].
  - apply shortCircuit_Ok in Hev as (a & px' & b & py & Hx' & Hy & ->).
    rewrite Hx in Hx'. injection Hx' as <- <-. simpl.
    apply firstPanic_r. by eapply IH.
Qed.

Lemma evalCondition_panics (p : gmap string GoValue) (c : GoExpr) :
  DividesByZero p c →
  (∀ m, evalCondition c p ≠ Err m) →
  ∃ m, evalCondition c p = Panic m.
Proof.
  intros Hdiv Hbuilt. unfold evalCondition in *.
  destruct (eval p c) as [[v pv]|m|m] eqn:Hev; simpl in *.
  - destruct (DividesByZero_panics p c Hdiv v pv Hev) as [m ->].
    destruct v; try (by exfalso; eapply Hbuilt). eauto.
  - by exfalso; eapply Hbuilt.
  - eauto.
Qed.

Lemma filterWorker_passes (eval : Row → result bool) (rows : list Row) :
  (∀ r, r ∈ rows → ∃ b, eval r = Ok b) →
  runWorker (filterWorker eval) tt rows = (passing eval rows, Ok tt).
Proof.
  induction rows as [|r rows IH]; intros Hok; [reflexivity|].
  cbn [runWorker passing List.filter]. unfold filterWorker at 1.
  destruct (Hok r ltac:(left)) as [b Hb]. rewrite Hb.
  fold (passing eval rows).
  destruct b; cbn [andThen send stay]; rewrite IH by (intros r' Hr'; apply Hok; by right);
    reflexivity.
Qed.

(** A filter worker forwards nothing after a panic of its function. *)
Lemma filterWorker_panics (eval : Row → result bool) (before later : list Row) (row : Row)
    (m : string) :
  (∀ r, r ∈ before → ∃ b, eval r = Ok b) →
  eval row = Panic m →
  runWorker (filterWorker eval) tt (before ++ row :: later) = (passing eval before, Panic m).
Proof.
  intros Hok Hpanic. rewrite runWorker_app, (filterWorker_passes eval before Hok).
  cbn [runWorker]. unfold filterWorker at 1. rewrite Hpanic. unfold after. cbn.
  by rewrite app_nil_r.
Qed.

(** C5, the claim as stated fails: with the filter [x / y > 0] on [int64]
    fields the row (1, 0) makes the evaluation panic; the filter worker does
    not go on, and the row (4, 2), which passes the filter, is not
    forwarded. *)
Lemma C5_counterexample :
  (e ← engine5;
   Ok (EvalIngressFilter (filter e) (ratio 4 2),
       runWorker (IngressFilterWorker e) tt [ratio 1 0; ratio 4 2])) =
  Ok (Ok true, ([], Panic "runtime error: integer divide by zero")).
Proof. vm_compute. reflexivity. Qed.

(** C5 (amended).  The evaluation of a condition has no failure value.
    When the evaluation on a row reaches a division or a remainder by the
    [int64] zero, the generated function panics: the filter worker has
    forwarded the rows before it that pass, and forwards no row after it,
    because the panic ends the engine.  A division of a [float64] by zero
    does not fail; it has an IEEE value like any other quotient. *)
Theorem C5_integer_division_by_zero_panics
    (fields : list Field) (c : GoExpr) (before later : list Row) (row : Row)
    (p : gmap string GoValue) :
  (∀ r, r ∈ before → ∃ b, evalFilter fields (Some c) r = Ok b) →
  TranslatePayload fields (Row_Payload row) = Ok p →
  DividesByZero p c →
  (∀ m, evalCondition c p ≠ Err m) →
  (∃ m, evalFilter fields (Some c) row = Panic m
        ∧ runWorker (filterWorker (evalFilter fields (Some c))) tt (before ++ row :: later) =
          (passing (evalFilter fields (Some c)) before, Panic m))
  ∧ (∀ (q : gmap string GoValue) (x y : string) (a : float64),
       q !! x = Some (GFloat a) → q !! y = Some (GFloat PrimFloat.zero) →
       eval q (EArith OpDiv (EField x) (EField y)) =
       Ok (GFloat (PrimFloat.div a PrimFloat.zero), None)).
Proof.
  intros Hbefore Hp Hdiv Hbuilt. split.
  - destruct (evalCondition_panics p c Hdiv Hbuilt) as [m Hm].
    assert (Hrow : evalFilter fields (Some c) row = Panic m).
    { unfold evalFilter. rewrite Hp. exact Hm. }
    exists m. split; [exact Hrow|]. by apply filterWorker_panics.
  - intros q x y a Hx Hy. simpl. rewrite Hx, Hy. reflexivity.
Qed.

Lemma C5_witness :
  ∃ m, evalFilter (Table_Fields_of_ratio) (Some condition5) (ratio 1 0) = Panic m
       ∧ runWorker (filterWorker (evalFilter (Table_Fields_of_ratio) (Some condition5))) tt
           ([ratio 4 2] ++ ratio 1 0 :: [ratio 6 3]) =
         (passing (evalFilter (Table_Fields_of_ratio) (Some condition5)) [ratio 4 2], Panic m).
Proof.
  refine (proj1 (C5_integer_division_by_zero_panics Table_Fields_of_ratio condition5
                   [ratio 4 2] [ratio 6 3] (ratio 1 0)
                   (<["x" := GInt 1]> (<["y" := GInt 0]> ∅)) _ _ _ _)).
  - intros r Hr. apply list_elem_of_In in Hr. destruct Hr as [<-|[]].
    exists true. vm_compute. reflexivity.
  - vm_compute. reflexivity.
  - unfold condition5. apply divides_cmp_l. eapply divides_here with (py := None).
    + apply list_elem_of_In; simpl; tauto.
    + vm_compute. reflexivity.
  - intros m. vm_compute. discriminate.
Defined.

(** ** The sum *)

(** [FindField] returns the first field of the table that has the name. *)
Lemma FindField_of_present_name (sys : System) (fullTableName : string) (table : Table)
    (before after : list Field) (field : Field) :
  Catalog.FindTable sys fullTableName = Ok table →
  Table_Fields table = before ++ field :: after →
  (∀ f, f ∈ before → Field_Name f ≠ Field_Name field) →
  Catalog.FindField sys fullTableName (Field_Name field) = Ok field.
Proof.
  intros Htable Hfields Hfirst. unfold Catalog.FindField. rewrite Htable. simpl.
  rewrite Hfields. clear Hfields Htable. f_equal.
  generalize zeroField. induction before as [|f fs IH]; intros d; simpl.
  - by rewrite String.eqb_refl.
  - destruct (String.eqb_spec (Field_Name f) (Field_Name field)) as [Heq|_].
    + exfalso. eapply Hfirst; [left|done].
    + apply IH. intros g Hg. apply Hfirst. by right.
Qed.

(** The accumulator of a [Summer] after a sequence of updates. *)
Lemma Summer_updates (typ : FieldType) (values : list Value) (addends : list float64) :
  Forall2 (λ v x, addend typ v = Ok x) values addends →
  ∀ acc, foldM Update values (Summer typ acc) =
         Ok (Summer typ (fold_left PrimFloat.add addends acc)).
Proof.
  induction 1 as [|v x values addends Hv _ IH]; intros acc; [reflexivity|].
  cbn [foldM Update fold_left]. rewrite Hv. simpl. apply IH.
Qed.

(** C6, the claim as stated fails: in the plan of scenario 1 the output
    field [s] of [sum(x)], for the [int64] field [x], has the type
    [integer64]. *)
Lemma C6_counterexample :
  (l ← parseQuery catalog (query1 (AggregateCountContext "x"));
   Ok (List.map (λ c, (Function_Name (Call_Function c), Field_Type (Call_OutputField c)))
         (List.filter (λ c, String.eqb (Function_Name (Call_Function c)) "sum") (calls l)))) =
  Ok [("sum", FieldType_integer64)].
Proof. vm_compute. reflexivity. Qed.

(** C6 (amended).  For every [sum] aggregation the output field carries
    the type of the field that [FindField] returns for the argument, so
    [float64] for a [float64] field and [integer64] for an [int64] field.
    The functor accumulates in [float64]: after a reset and a sequence of
    updates its value is the float sum of the values, the integers being
    converted to [float64]. *)
Theorem C6_sum_type_and_value :
  (∀ (sys : System) (fieldName : string) (l l' : queryListener),
     ExitAggregateSum sys fieldName l = Ok l' →
     ∃ (field : Field) (call : Call),
       Catalog.FindField sys (inputTableFullName l) fieldName = Ok field
       ∧ calls l' = calls l ++ [call]
       ∧ Function_Name (Call_Function call) = "sum"
       ∧ Call_InputFields call = [field]
       ∧ Function_OutputType (Call_Function call) = Field_Type field
       ∧ Call_OutputField call =
           {| Field_Name := aggregateAliasFieldName l; Field_Description := "";
              Field_Type := Field_Type field; Field_Usage := FieldUsage_data;
              Field_Properties := [] |})
  ∧ (∀ xs : list float64,
       Value_ <$> foldM Update (VFloat <$> xs) (InitSummer FieldType_float64) =
       Ok (Some (VFloat (fold_left PrimFloat.add xs PrimFloat.zero))))
  ∧ (∀ ns : list Z,
       Value_ <$> foldM Update (VInt <$> ns) (InitSummer FieldType_integer64) =
       Ok (Some (VFloat (fold_left PrimFloat.add (float64_of_int64 <$> ns) PrimFloat.zero)))).
Proof.
  split; [|split].
  - intros sys fieldName l l' H. unfold ExitAggregateSum, addAggregateFunction in H.
    destruct (Catalog.FindField sys (inputTableFullName l) fieldName) as [field|m|m] eqn:Hfind;
      simpl in H; try discriminate.
    injection H as <-. eexists field, _. repeat split.
  - intros xs. unfold InitSummer, Reset.
    rewrite (Summer_updates FieldType_float64 (VFloat <$> xs) xs); [reflexivity|].
    induction xs; constructor; done.
  - intros ns. unfold InitSummer, Reset.
    rewrite (Summer_updates FieldType_integer64 (VInt <$> ns) (float64_of_int64 <$> ns));
      [reflexivity|].
    induction ns; constructor; done.
Qed.

Lemma C6_witness :
  ∃ (field : Field) (call : Call),
    Catalog.FindField catalog "sys.db.sch.foo" "x" = Ok field
    ∧ Function_Name (Call_Function call) = "sum"
    ∧ Function_OutputType (Call_Function call) = Field_Type field
    ∧ Field_Type field = FieldType_integer64.
Proof.
  destruct (proj1 C6_sum_type_and_value catalog "x"
              (setInputTableFullName "sys.db.sch.foo" (setAggregateAliasFieldName "s" newListener))
              _ eq_refl)
    as (field & call & Hfind & Hcalls & Hname & Hin & Hout & Hfield).
  exists field, call. repeat split; [exact Hfind | exact Hname | exact Hout |].
  vm_compute in Hfind. by injection Hfind as <-.
Defined.

(** ** Propagation of the schema *)

Lemma FindFirstNodeByType_updateNode_ne (typ typ' : OperatorType) (f : Node → Node) (plan : Plan) :
  (∀ n, Node_Type (f n) = Node_Type n) →
  typ ≠ typ' →
  FindFirstNodeByType (updateNode typ f plan) typ' = FindFirstNodeByType plan typ'.
Proof.
  intros Hf Hne. induction plan as [|node plan IH]; [reflexivity|].
  simpl. destruct (decide (Node_Type node = typ)) as [Heq|Hneq]; simpl.
  - rewrite Hf. destruct (decide (Node_Type node = typ')); congruence.
  - destruct (decide (Node_Type node = typ')); [reflexivity | exact IH].
Qed.

Lemma FindFirstNodeByType_updateNode_eq (typ : OperatorType) (f : Node → Node) (plan : Plan) :
  (∀ n, Node_Type (f n) = Node_Type n) →
  FindFirstNodeByType (updateNode typ f plan) typ = f <$> FindFirstNodeByType plan typ.
Proof.
  intros Hf. induction plan as [|node plan IH]; [reflexivity|].
  simpl. destruct (decide (Node_Type node = typ)) as [Heq|Hneq]; simpl.
  - rewrite Hf. by rewrite decide_True.
  - by rewrite decide_False.
Qed.

(** An update of a node that keeps its type and its fields keeps the
    output schema of every node. *)
Lemma outputSchema_updateNode_same (typ typ' : OperatorType) (f : Node → Node) (plan : Plan) :
  (∀ n, Node_Type (f n) = Node_Type n) →
  (∀ n, Node_FieldsPtr (f n) = Node_FieldsPtr n) →
  outputSchema (updateNode typ f plan) typ' = outputSchema plan typ'.
Proof.
  intros Htype Hfields. unfold outputSchema.
  destruct (decide (typ = typ')) as [<-|Hne].
  - rewrite FindFirstNodeByType_updateNode_eq by done.
    destruct (FindFirstNodeByType plan typ); simpl; [|reflexivity].
    unfold Node_Fields. by rewrite Hfields.
  - by rewrite FindFirstNodeByType_updateNode_ne.
Qed.

(** An update of the node of another type keeps the output schema. *)
Lemma outputSchema_updateNode_other (typ typ' : OperatorType) (f : Node → Node) (plan : Plan) :
  (∀ n, Node_Type (f n) = Node_Type n) →
  typ ≠ typ' →
  outputSchema (updateNode typ f plan) typ' = outputSchema plan typ'.
Proof. intros Htype Hne. unfold outputSchema. by rewrite FindFirstNodeByType_updateNode_ne. Qed.

Lemma keeps_bind (step1 step2 : queryListener → result queryListener) :
  keeps step1 → keeps step2 → keeps (λ l, step1 l ≫= step2).
Proof.
  intros H1 H2 l l' H typ Htyp. apply bind_Ok in H as (l1 & Hl1 & Hl').
  rewrite (H2 _ _ Hl' typ Htyp). by apply H1.
Qed.

Lemma keeps_pure (f : queryListener → queryListener) :
  (∀ l, queryPlan (f l) = queryPlan l) → keeps (λ l, Ok (f l)).
Proof. intros Hf l l' [= <-] typ _. by rewrite Hf. Qed.

Lemma samePlan_keeps (step : queryListener → result queryListener) :
  samePlan step → keeps step.
Proof. intros H l l' Hl typ _. by rewrite (H l l' Hl). Qed.

Lemma samePlan_bind (step1 step2 : queryListener → result queryListener) :
  samePlan step1 → samePlan step2 → samePlan (λ l, step1 l ≫= step2).
Proof.
  intros H1 H2 l l' H. apply bind_Ok in H as (l1 & Hl1 & Hl').
  rewrite (H2 _ _ Hl'). by apply H1.
Qed.

Lemma pop_plan (l l' : queryListener) (t : GoExpression) :
  pop l = Ok (t, l') → queryPlan l' = queryPlan l.
Proof.
  unfold pop. destruct (reverse (ExprStack (goCode l))); [discriminate|].
  by intros [= _ <-].
Qed.

(** The exit functions of the operators take two expressions from the
    stack and push one. *)
Lemma samePlan_pop2 (build : GoExpression → GoExpression → GoExpression) :
  samePlan (λ l, '(rhs, l) ← pop l; '(lhs, l) ← pop l; Ok (push (build rhs lhs) l)).
Proof.
  intros l l' H.
  apply bind_Ok in H as ([rhs l1] & H1 & H).
  apply bind_Ok in H as ([lhs l2] & H2 & H).
  injection H as <-. apply pop_plan in H1, H2. simpl. congruence.
Qed.

Lemma samePlan_pop1 (build : GoExpression → GoExpression) :
  samePlan (λ l, '(term, l) ← pop l; Ok (push (build term) l)).
Proof.
  intros l l' H. apply bind_Ok in H as ([term l1] & H1 & H).
  injection H as <-. apply pop_plan in H1. simpl. congruence.
Qed.

Lemma samePlan_ExitDuration (d : DurationContext) : samePlan (ExitDuration d).
Proof.
  intros l l' H. unfold ExitDuration in H.
  apply bind_Ok in H as (timeUnit & _ & H). by injection H as <-.
Qed.

Lemma samePlan_walkAtom (a : AtomContext) : samePlan (walkAtom a).
Proof.
  intros l l' H. destruct a; simpl in H; try (by injection H as <-).
  unfold ExitVariable in H. apply bind_Ok in H as (node & _ & H).
  destruct (lookupVariable _ _) as [[|] isTime]; simpl in H; [|discriminate].
  by injection H as <-.
Qed.

Lemma samePlan_walkTerm (t : TermContext) : samePlan (walkTerm t).
Proof.
  induction t as [d|a|op lhs IHl rhs IHr|op lhs IHl rhs IHr|t IH]; simpl.
  - apply samePlan_ExitDuration.
  - apply samePlan_walkAtom.
  - apply samePlan_bind; [exact IHl|]. apply samePlan_bind; [exact IHr|].
    apply (samePlan_pop2 (λ rhs lhs, {| Code := _; Kind_ := Kind_ rhs |})).
  - apply samePlan_bind; [exact IHl|]. apply samePlan_bind; [exact IHr|].
    apply (samePlan_pop2 (λ rhs lhs, if bool_decide _ then _ else _)).
  - apply samePlan_bind; [exact IH|].
    apply (samePlan_pop1 (λ term, {| Code := _; Kind_ := Kind_ term |})).
Qed.

Lemma samePlan_walkExpression (e : ExpressionContext) : samePlan (walkExpression e).
Proof.
  induction e as [op lhs rhs|e IH|op lhs IHl rhs IHr]; simpl.
  - apply samePlan_bind; [apply samePlan_walkTerm|].
    apply samePlan_bind; [apply samePlan_walkTerm|].
    apply (samePlan_pop2 (λ rhs lhs, if bool_decide _ then _ else _)).
  - apply samePlan_bind; [exact IH|].
    apply (samePlan_pop1 (λ term, {| Code := _; Kind_ := Kind_ term |})).
  - apply samePlan_bind; [exact IHl|]. apply samePlan_bind; [exact IHr|].
    apply (samePlan_pop2 (λ rhs lhs, {| Code := _; Kind_ := Kind_ rhs |})).
Qed.

Lemma keeps_update (typ : OperatorType) (f : Node → Node) (l : queryListener) :
  (∀ n, Node_Type (f n) = Node_Type n) →
  (typ ∈ upstream → ∀ n, Node_FieldsPtr (f n) = Node_FieldsPtr n) →
  ∀ typ', typ' ∈ upstream →
          outputSchema (queryPlan (withPlan (updateNode typ f) l)) typ' =
          outputSchema (queryPlan l) typ'.
Proof.
  intros Htype Hfields typ' Htyp'. simpl.
  destruct (decide (typ ∈ upstream)) as [Hin|Hout].
  - apply outputSchema_updateNode_same; auto.
  - apply outputSchema_updateNode_other; [done|]. by intros ->.
Qed.

Lemma keeps_copyFields (from to : OperatorType) :
  to ∉ upstream → keeps (copyFields from to).
Proof.
  intros Hto l l' H typ Htyp. unfold copyFields in H.
  apply bind_Ok in H as (fromNode & _ & H). apply bind_Ok in H as (toNode & _ & H).
  destruct (negb (Node_HasFields fromNode)); injection H as <-; [reflexivity|].
  by apply keeps_update.
Qed.

Lemma keeps_copyGroupFields (from to : OperatorType) : keeps (copyGroupFields from to).
Proof.
  intros l l' H typ Htyp. unfold copyGroupFields in H.
  apply bind_Ok in H as (fromNode & _ & H). apply bind_Ok in H as (toNode & _ & H).
  destruct (negb (Node_HasGroupFields fromNode)); injection H as <-; [reflexivity|].
  by apply keeps_update.
Qed.

Lemma keeps_setWindow (a b c d e : string) : keeps (setWindow a b c d e).
Proof.
  intros l l' H typ Htyp. unfold setWindow in H.
  apply bind_Ok in H as (node & _ & H). injection H as <-. by apply keeps_update.
Qed.

Lemma keeps_walkWhere (e : option ExpressionContext) (exitClause : queryListener → queryListener) :
  (∀ l, queryPlan (exitClause l) = queryPlan l) → keeps (walkWhere e exitClause).
Proof.
  intros Hexit. apply samePlan_keeps. destruct e as [e|]; simpl; [|by intros l l' [= <-]].
  apply samePlan_bind; [apply samePlan_walkExpression|].
  apply samePlan_bind.
  - intros l l' H. unfold ExitWhereClause in H.
    apply bind_Ok in H as ([top l1] & H1 & H). injection H as <-.
    apply pop_plan in H1. simpl. congruence.
  - intros l l' [= <-]. apply Hexit.
Qed.

Lemma keeps_walkWindowClause (w : WindowClauseContext) : keeps (walkWindowClause w).
Proof.
  destruct w as [size sequenceField|s a|open close clusivity life]; simpl.
  - apply keeps_bind.
    + destruct size; [apply samePlan_keeps, samePlan_ExitDuration | by apply keeps_pure].
    + intros l l' H typ Htyp. unfold ExitSliceWindow in H.
      set (l0 := match sequenceField with Some _ => _ | None => _ end) in H.
      assert (Hl0 : queryPlan l0 = queryPlan l) by (subst l0; by destruct sequenceField).
      rewrite <- Hl0.
      destruct (sliceIntervalTypeIsDistance l0).
      * destruct size; [discriminate|]. by eapply keeps_setWindow.
      * apply bind_Ok in H as ([top l1] & H1 & H). apply pop_plan in H1.
        destruct size as [duration|]; [|discriminate].
        apply bind_Ok in H as (intervalType & _ & H).
        rewrite (keeps_setWindow _ _ _ _ _ _ _ H typ Htyp). simpl. by rewrite H1.
  - apply samePlan_keeps, samePlan_bind; apply samePlan_ExitDuration.
  - intros l l' H typ Htyp.
    apply bind_Ok in H as (l1 & H1 & H). apply samePlan_walkExpression in H1.
    apply bind_Ok in H as (l2 & H2 & H). unfold ExitSessionOpen in H2.
    apply bind_Ok in H2 as ([t2 l2'] & H2 & H2'). apply pop_plan in H2. injection H2' as <-.
    apply bind_Ok in H as (l3 & H3 & H). apply samePlan_walkExpression in H3.
    apply bind_Ok in H as (l4 & H4 & H). unfold ExitSessionClose in H4.
    apply bind_Ok in H4 as ([t4 l4'] & H4 & H4'). apply pop_plan in H4.
    apply keeps_setWindow in H4'. specialize (H4' typ Htyp).
    apply bind_Ok in H as (l5 & H5 & H). apply samePlan_ExitDuration in H5.
    injection H as <-. simpl in *. rewrite H5, H4'. simpl. by rewrite H4, H3, H2, H1.
Qed.

Lemma samePlan_walkAggregation (sys : System) (ctx : AggregationContext) :
  samePlan (λ l, walkAggregation sys l ctx).
Proof.
  intros l l' H. unfold walkAggregation, walkAggregate in H.
  destruct (Aggregation_Aggregate ctx); try (by injection H as <-);
    unfold ExitAggregateAverage, ExitAggregateCount, ExitAggregateSum, ExitAggregateFirst,
      ExitAggregateLast, addAggregateFunction in H;
    apply bind_Ok in H as (field & _ & H); by injection H as <-.
Qed.

Lemma samePlan_foldM_walkAggregation (sys : System) (ctxs : list AggregationContext) :
  samePlan (foldM (walkAggregation sys) ctxs).
Proof.
  induction ctxs as [|ctx ctxs IH]; intros l l' H; simpl in H; [by injection H as <-|].
  destruct (walkAggregation sys l ctx) as [l1| |] eqn:H1; try discriminate.
  rewrite (IH _ _ H). by apply (samePlan_walkAggregation sys ctx).
Qed.

Lemma keeps_ExitAggregations (ctxs : list AggregationContext) : keeps (ExitAggregations ctxs).
Proof.
  intros l l' H typ Htyp. unfold ExitAggregations in H.
  destruct (negb _); [discriminate|].
  apply bind_Ok in H as (node & _ & H). injection H as <-.
  rewrite keeps_update; [|done|not_upstream|done].
  apply keeps_update; [done|not_upstream|done].
Qed.

Lemma keeps_EnterAppendClause (names : list string) : keeps (EnterAppendClause names).
Proof.
  intros l l' H typ Htyp. unfold EnterAppendClause in H.
  apply bind_Ok in H as (node & _ & H). apply bind_Ok in H as (other & _ & H).
  injection H as <-. apply keeps_update; [done|not_upstream|done].
Qed.

Lemma keeps_then_pure (step : queryListener → result queryListener)
    (f : queryListener → queryListener) :
  keeps step → (∀ l, queryPlan (f l) = queryPlan l) → keeps (λ l, l ← step l; Ok (f l)).
Proof. intros Hstep Hf. apply keeps_bind; [exact Hstep | by apply keeps_pure]. Qed.

Lemma keeps_ExitGroupClause (names : list string) : keeps (ExitGroupClause names).
Proof.
  intros l l' H typ Htyp. unfold ExitGroupClause in H.
  apply bind_Ok in H as (node & _ & H). injection H as <-.
  rewrite keeps_update; done.
Qed.

Lemma keeps_ExitQueryClause : keeps ExitQueryClause.
Proof.
  unfold ExitQueryClause.
  repeat (apply keeps_bind; [apply keeps_copyGroupFields|]).
  by apply keeps_pure.
Qed.

(** The walk after the from clause keeps the output schema of the ingress,
    ingress filter and window nodes. *)
Lemma keeps_after_from (sys : System) (q : QueryClauseContext) :
  keeps (λ l,
    l ← match GroupClause q with
        | Some allGroups => ExitGroupClause allGroups l
        | None => Ok l
        end;
    l ← walkWhere (IngressWhereClause q) ExitIngressWhereClause l;
    l ← walkWindowClause (WindowClause q) l;
    l ← foldM (walkAggregation sys) (AggregateClause q) l;
    l ← ExitAggregations (AggregateClause q) l;
    l ← ExitAggregateClause l;
    l ← walkWhere (AggregateWhereClause q) ExitAggregateWhereClause l;
    l ← EnterAppendClause (AppendClause q) l;
    l ← ExitAppendClause l;
    l ← walkWhere (ProjectWhereClause q) ExitProjectWhereClause l;
    l ← EnterToClause l;
    ExitQueryClause l).
Proof.
  apply keeps_bind.
  { destruct (GroupClause q); [apply keeps_ExitGroupClause | by apply keeps_pure]. }
  apply keeps_bind; [by apply keeps_walkWhere|].
  apply keeps_bind; [apply keeps_walkWindowClause|].
  apply keeps_bind; [apply samePlan_keeps, samePlan_foldM_walkAggregation|].
  apply keeps_bind; [apply keeps_ExitAggregations|].
  apply keeps_bind.
  { apply keeps_then_pure; [apply keeps_copyFields; not_upstream | done]. }
  apply keeps_bind; [by apply keeps_walkWhere|].
  apply keeps_bind; [apply keeps_EnterAppendClause|].
  apply keeps_bind.
  { apply keeps_then_pure; [apply keeps_copyFields; not_upstream | done]. }
  apply keeps_bind; [by apply keeps_walkWhere|].
  apply keeps_bind; [apply keeps_copyFields; not_upstream|].
  apply keeps_ExitQueryClause.
Qed.

Lemma copyFieldsHelper_signature (fields : list Field) :
  signature <$> copyFieldsHelper fields (replicate (length fields) zeroField) =
  signature <$> fields.
Proof.
  induction fields as [|f fs IH]; [reflexivity|].
  cbn [length replicate copyFieldsHelper]. rewrite !fmap_cons. by rewrite IH.
Qed.

(** The from clause gives the three nodes the schema of the table. *)
Lemma ExitFromClause_schema (sys : System) (tableName : string) (l : queryListener) :
  ExitFromClause sys tableName newListener = Ok l →
  ∃ table, Catalog.FindTable sys tableName = Ok table
           ∧ ∀ typ, typ ∈ upstream →
                    outputSchema (queryPlan l) typ = Some (signature <$> Table_Fields table).
Proof.
  unfold ExitFromClause. simpl.
  destruct (Catalog.FindTable sys tableName) as [table| |]; simpl; try discriminate.
  intros [= <-]. exists table. split; [reflexivity|].
  intros typ Htyp. apply list_elem_of_In in Htyp.
  destruct Htyp as [<-|[<-|[<-|[]]]].
  - reflexivity.
  - exact (f_equal Some (copyFieldsHelper_signature (Table_Fields table))).
  - exact (f_equal Some (copyFieldsHelper_signature (Table_Fields table))).
Qed.

(** C8.  In every plan that the compiler produces, the ingress node, the
    ingress filter node and the window node have the same output schema:
    the names, types and usages of the fields of the table of the from
    clause, in their order. *)
Theorem C8_schema_propagation (sys : System) (q : QueryClauseContext) (l : queryListener) :
  parseQuery sys q = Ok l →
  ∃ table, Catalog.FindTable sys (FromClause q) = Ok table
    ∧ outputSchema (queryPlan l) OperatorType_ingress = Some (signature <$> Table_Fields table)
    ∧ outputSchema (queryPlan l) OperatorType_ingressFilter = Some (signature <$> Table_Fields table)
    ∧ outputSchema (queryPlan l) OperatorType_window = Some (signature <$> Table_Fields table).
Proof.
  intros H. unfold parseQuery, walkQueryClause in H.
  apply bind_Ok in H as (l1 & Hfrom & Hrest).
  apply ExitFromClause_schema in Hfrom as (table & Htable & Hschema).
  pose proof (keeps_after_from sys q l1 l Hrest) as Hkeeps.
  exists table. split; [exact Htable|].
  repeat split; (rewrite Hkeeps; [apply Hschema|]); is_upstream.
Qed.

Lemma C8_witness :
  ∃ table, Catalog.FindTable catalog "sys.db.sch.foo" = Ok table
    ∧ (l ← parseQuery catalog (query1 (AggregateCountContext "x"));
       Ok (outputSchema (queryPlan l) OperatorType_ingress,
           outputSchema (queryPlan l) OperatorType_ingressFilter,
           outputSchema (queryPlan l) OperatorType_window)) =
      Ok (Some (signature <$> Table_Fields table), Some (signature <$> Table_Fields table),
          Some (signature <$> Table_Fields table)).
Proof.
  destruct (parseQuery catalog (query1 (AggregateCountContext "x"))) as [l| |] eqn:Hl;
    [|vm_compute in Hl; discriminate..].
  destruct (C8_schema_propagation catalog _ l Hl) as (table & Htable & H1 & H2 & H3).
  exists table. split; [exact Htable|]. simpl. by rewrite H1, H2, H3.
Defined.
